(** * Supabase health monitor: the monitoring state machine

    A shallow embedding of [supabase_monitor.py] (the monitor with daily
    reporting) and of [app.py] (the baseline monitor, whose probe and alert
    block are the same text).

    Conventions of the embedding.
    - Python [int] is [Z]; Python [float] is an exact rational [Q], so the
      arithmetic is the one of the reals and binary rounding is left out.
    - The dictionaries with a fixed key set ([health_status], [daily_stats],
      one entry of [endpoints_status]) are records; [endpoints_status] itself
      is an association list in insertion order.
    - Status and severity strings range over a fixed set of literals and are
      enumerations.
    - The network and the clock are inputs: what [requests.get] and
      [requests.post] answer and what [datetime.now()] reads are given to
      each operation from outside.
    - Methods of [SupabaseMonitor] run in a small monad that threads the
      object's fields, collects the observable events (posts to Telegram and
      log records) and propagates a raised exception.
    - The text of a notification is kept as the data its f-strings
      interpolate. *)

From Stdlib Require Import ZArith QArith Qround String List Bool Lia Lqa.
From Stdlib Require Import DecimalString.
Import ListNotations.

Open Scope string_scope.
Open Scope Z_scope.

(** ** Python helpers *)

Module Py.

(** [str(n)] / [f"{n}"] for an [int]. *)
Definition str_int (n : Z) : string := NilZero.string_of_int (Z.to_int n).

(** Truth value of an optional float: [None] and [0.0] are false. *)
Definition truthy (x : option Q) : bool :=
  match x with
  | Some q => negb (Qeq_bool q 0)
  | None => false
  end.

(** Truth value of an optional string: [None] and [""] are false. *)
Definition truthy_str (x : option string) : bool :=
  match x with
  | Some "" => false
  | Some _ => true
  | None => false
  end.

(** Nearest integer, ties to even. *)
Definition round_half_even (q : Q) : Z :=
  let f := Qfloor q in
  match Qcompare (q - inject_Z f) (1 # 2) with
  | Lt => f
  | Gt => f + 1
  | Eq => if Z.even f then f else f + 1
  end.

(** [round(x, 2)], on the exact value: the decimal nearest to [x], ties to
    even.  Python rounds the double it is given, which can sit just below or
    above a decimal tie; such inputs round the other way there. *)
Definition round2 (x : Q) : Q :=
  inject_Z (round_half_even (x * 100)) / 100.

(** Exceptions a method of the monitor can raise. *)
Inductive Exn : Type :=
| ZeroDivisionError.

(** [a / b]: raises on a zero divisor.  The [OverflowError] of a quotient of
    integers beyond the range of a float (above 1e308) is not modelled. *)
Definition truediv (a b : Q) : Exn + Q :=
  if Qeq_bool b 0 then inl ZeroDivisionError else inr (a / b)%Q.

(** [sum(xs)]: left to right from 0. *)
Definition sum (xs : list Q) : Q := fold_left Qplus xs 0%Q.

(** [len(xs)]. *)
Definition len {A : Type} (xs : list A) : Z := Z.of_nat (List.length xs).

End Py.

(** ** Configuration constants *)

Definition CHECK_INTERVAL : Z := 60.
Definition MAX_RETRIES : Z := 3.
Definition REQUEST_TIMEOUT : Z := 10.

(** ** Data model *)

(** The values of [health_status['status']]. *)
Inductive Status : Type :=
| unknown
| healthy
| warning
| error.

Definition Status_eqb (a b : Status) : bool :=
  match a, b with
  | unknown, unknown | healthy, healthy | warning, warning | error, error => true
  | _, _ => false
  end.

(** The dictionary returned by [check_supabase_health]. *)
Record HealthStatus : Type := mkHealth {
  status : Status;
  response_time : option Q;
  error_message : option string;
  status_code : option Z
}.

Definition set_status (s : Status) (h : HealthStatus) : HealthStatus :=
  mkHealth s (response_time h) (error_message h) (status_code h).

Definition set_response_time (t : Q) (h : HealthStatus) : HealthStatus :=
  mkHealth (status h) (Some t) (error_message h) (status_code h).

Definition set_error_message (m : string) (h : HealthStatus) : HealthStatus :=
  mkHealth (status h) (response_time h) (Some m) (status_code h).

Definition set_status_code (c : Z) (h : HealthStatus) : HealthStatus :=
  mkHealth (status h) (response_time h) (error_message h) (Some c).

(** ** The transport, as seen by the probe *)

(** What can come out of [requests.get]: a response, or an exception.  The
    constructors of [TransportExn] are the four [except] clauses in their
    order; an exception belongs to the first clause that accepts it. *)
Inductive TransportExn : Type :=
| Timeout
| ConnectionError
| RequestException (detail : string)
| OtherException (detail : string).

Inductive GetOutcome : Type :=
| Responded (code : Z) (elapsed : Q)
| Failed (e : TransportExn).

(** ** HealthProbe: [check_supabase_health] *)

(** The [if]/[elif] chain over [response.status_code]. *)
Definition classify (code : Z) (h : HealthStatus) : HealthStatus :=
  if code =? 200 then
    set_status healthy h
  else if code >=? 500 then
    set_error_message ("Internal server error: " ++ Py.str_int code)
      (set_status error h)
  else if code =? 401 then
    set_error_message "Authentication failed - check your API key"
      (set_status error h)
  else if code =? 403 then
    set_error_message "Access forbidden - check permissions"
      (set_status error h)
  else if code >=? 400 then
    set_error_message ("Client error: " ++ Py.str_int code)
      (set_status warning h)
  else
    set_error_message ("Unexpected status code: " ++ Py.str_int code)
      (set_status warning h).

Definition initial_health : HealthStatus :=
  mkHealth unknown None None None.

Definition check_supabase_health (get : GetOutcome) : HealthStatus :=
  let health_status := initial_health in
  match get with
  | Responded code elapsed =>
      let health_status :=
        set_response_time (Py.round2 (elapsed * 1000)) health_status in
      let health_status := set_status_code code health_status in
      classify code health_status
  | Failed Timeout =>
      set_error_message
        ("Request timeout after " ++ Py.str_int REQUEST_TIMEOUT ++ " seconds")
        (set_status error health_status)
  | Failed ConnectionError =>
      set_error_message "Connection error - unable to reach Supabase"
        (set_status error health_status)
  | Failed (RequestException e) =>
      set_error_message ("Request error: " ++ e)
        (set_status error health_status)
  | Failed (OtherException e) =>
      set_error_message ("Unexpected error: " ++ e)
        (set_status error health_status)
  end.

(** The table of the specification for the primary check, one constructor per
    row: the classification and the message a status code is given. *)
Inductive classify_table (code : Z) : Status -> option string -> Prop :=
| row_200 :
    code = 200 ->
    classify_table code healthy None
| row_5xx :
    500 <= code ->
    classify_table code error
      (Some ("Internal server error: " ++ Py.str_int code))
| row_401 :
    code = 401 ->
    classify_table code error
      (Some "Authentication failed - check your API key")
| row_403 :
    code = 403 ->
    classify_table code error
      (Some "Access forbidden - check permissions")
| row_4xx :
    400 <= code < 500 -> code <> 401 -> code <> 403 ->
    classify_table code warning
      (Some ("Client error: " ++ Py.str_int code))
| row_other :
    code <> 200 -> code < 400 ->
    classify_table code warning
      (Some ("Unexpected status code: " ++ Py.str_int code)).

(** The classification of a status code, read off the probe's result. *)
Definition probe_code (code : Z) (elapsed : Q) : Status * option string :=
  let h := check_supabase_health (Responded code elapsed) in
  (status h, error_message h).

(** ** Auxiliary endpoints: [check_specific_endpoints] *)

Inductive EndpointOutcome : Type :=
| EndpointResponded (code : Z)
| EndpointRaised (detail : string).

(** One value of the [endpoints_status] dictionary. *)
Record EndpointStatus : Type := mkEndpoint {
  ep_status : Status;
  ep_status_code : option Z;
  ep_error : option string
}.

Definition endpoints : list string := ["Auth"; "Realtime"; "Storage"].

Definition check_endpoint (o : EndpointOutcome) : EndpointStatus :=
  match o with
  | EndpointResponded code =>
      mkEndpoint (if code =? 200 then healthy else error)
                 (Some code)
                 (if code =? 200 then None
                  else Some ("HTTP " ++ Py.str_int code))
  | EndpointRaised e => mkEndpoint error None (Some e)
  end.

Definition check_specific_endpoints (get : string -> EndpointOutcome)
  : list (string * EndpointStatus) :=
  map (fun name => (name, check_endpoint (get name))) endpoints.

(** ** Calendar dates and times of day *)

Record date : Type := mkDate { year : Z; month : Z; day : Z }.

Record dt_time : Type := mkTime {
  hour : Z; minute : Z; second : Z; microsecond : Z
}.

Record datetime : Type := mkDatetime { date_of : date; time_of : dt_time }.

Definition date_eqb (a b : date) : bool :=
  (year a =? year b) && (month a =? month b) && (day a =? day b).

(** [last != current] where [last] is [None] or a date. *)
Definition date_ne (last : option date) (current : date) : bool :=
  match last with
  | None => true
  | Some d => negb (date_eqb d current)
  end.

(** Times of day compare as the tuples (hour, minute, second, microsecond). *)
Definition time_cmp (a b : dt_time) : comparison :=
  match hour a ?= hour b with
  | Eq =>
      match minute a ?= minute b with
      | Eq =>
          match second a ?= second b with
          | Eq => microsecond a ?= microsecond b
          | c => c
          end
      | c => c
      end
  | c => c
  end.

Definition time_ge (a b : dt_time) : bool :=
  match time_cmp a b with
  | Lt => false
  | _ => true
  end.

(** Send the daily report at 9:00 AM. *)
Definition DAILY_REPORT_TIME : dt_time := mkTime 9 0 0 0.

(** A time of day the clock can read. *)
Definition valid_time (t : dt_time) : Prop :=
  0 <= hour t < 24 /\ 0 <= minute t < 60 /\ 0 <= second t < 60 /\
  0 <= microsecond t < 1000000.

(** Microseconds since midnight. *)
Definition micros_of_time (t : dt_time) : Z :=
  ((hour t * 60 + minute t) * 60 + second t) * 1000000 + microsecond t.

(** ** Daily statistics *)

Record DailyStats : Type := mkStats {
  checks_today : Z;
  errors_today : Z;
  warnings_today : Z;
  total_downtime_minutes : Q;
  average_response_time : Q;
  response_times : list Q
}.

Definition zero_stats : DailyStats := mkStats 0 0 0 0 0 [].

(** ** The monitor object *)

(** The fields of [SupabaseMonitor].  [app.py] has the first two only; its
    methods never touch the others. *)
Record Monitor : Type := mkMonitor {
  last_status : option Status;
  consecutive_failures : Z;
  last_daily_report_date : option date;
  daily_stats : DailyStats
}.

(** [__init__]. *)
Definition init : Monitor := mkMonitor None 0 None zero_stats.

(** ** Notifications and log records *)

Inductive Severity : Type :=
| ERROR
| WARNING
| INFO
| DAILY_SUCCESS.

Inductive Emoji : Type :=
| rotating_light
| warning_sign
| information
| check_mark.

(** The message of a notification, as the values interpolated in its text. *)
Inductive Message : Type :=
| MonitoringStarted
| MonitorError (e : Py.Exn)
| ApiDown (err : option string) (code : option Z) (failures : Z)
          (failed_endpoints : list string)
| ApiWarning (issue : option string) (code : option Z) (time : option Q)
| ApiBackOnline (time : option Q) (previous_failures : Z)
| DailyReport (on : date) (overall_healthy : bool) (checks : Z) (uptime : Q)
              (errors : Z) (warnings : Z)
              (downtime : option Q) (average : option Q).

Inductive LogRecord : Type :=
| Starting
| AlertSent (severity : Severity)
| AlertFailed (detail : string)
| AlertUnexpected (detail : string)
| StatusLine (current : Status) (time : option Q) (err : option string)
| LoopError (e : Py.Exn).

Inductive Event : Type :=
| Post (emoji : Emoji) (severity : Severity) (message : Message)
| LogInfo (r : LogRecord)
| LogError (r : LogRecord)
| Sleep (seconds : Z).

(** What can come out of [requests.post] followed by [raise_for_status]. *)
Inductive PostOutcome : Type :=
| Delivered
| PostRequestException (detail : string)
| PostOtherException (detail : string).

(** ** The monad of the methods *)

Definition M (A : Type) : Type :=
  Monitor -> (Py.Exn + A) * Monitor * list Event.

Definition ret {A : Type} (a : A) : M A := fun self => (inr a, self, []).

Definition bind {A B : Type} (m : M A) (k : A -> M B) : M B :=
  fun self =>
    match m self with
    | (inl e, self1, out1) => (inl e, self1, out1)
    | (inr a, self1, out1) =>
        let '(r, self2, out2) := k a self1 in (r, self2, (out1 ++ out2)%list)
    end.

Notation "x <- m ;; k" := (bind m (fun x => k))
  (at level 61, m at next level, right associativity).
Notation "m ;; k" := (bind m (fun _ => k))
  (at level 61, right associativity).

Definition get : M Monitor := fun self => (inr self, self, []).
Definition put (s : Monitor) : M unit := fun _ => (inr tt, s, []).
Definition emit (e : Event) : M unit := fun self => (inr tt, self, [e]).

(** Lift the result of a partial operation. *)
Definition lift {A : Type} (r : Py.Exn + A) : M A :=
  fun self => (r, self, []).

(** [try: m except Exception as e: h e]. *)
Definition try_except {A : Type} (m : M A) (h : Py.Exn -> M A) : M A :=
  fun self =>
    match m self with
    | (inl e, self1, out1) =>
        let '(r, self2, out2) := h e self1 in (r, self2, (out1 ++ out2)%list)
    | ok => ok
    end.

Definition when (b : bool) (m : M unit) : M unit := if b then m else ret tt.

(** Assignments to the fields of [self]. *)
Definition set_last_status (v : option Status) : M unit :=
  self <- get ;;
  put (mkMonitor v (consecutive_failures self)
                 (last_daily_report_date self) (daily_stats self)).

Definition set_consecutive_failures (v : Z) : M unit :=
  self <- get ;;
  put (mkMonitor (last_status self) v
                 (last_daily_report_date self) (daily_stats self)).

Definition set_last_daily_report_date (v : option date) : M unit :=
  self <- get ;;
  put (mkMonitor (last_status self) (consecutive_failures self)
                 v (daily_stats self)).

Definition set_daily_stats (v : DailyStats) : M unit :=
  self <- get ;;
  put (mkMonitor (last_status self) (consecutive_failures self)
                 (last_daily_report_date self) v).

(** An item assignment [self.daily_stats[k] = v]. *)
Definition modify_stats (f : DailyStats -> DailyStats) : M unit :=
  self <- get ;;
  set_daily_stats (f (daily_stats self)).

Definition set_checks_today (v : Z) (d : DailyStats) : DailyStats :=
  mkStats v (errors_today d) (warnings_today d) (total_downtime_minutes d)
          (average_response_time d) (response_times d).

Definition set_errors_today (v : Z) (d : DailyStats) : DailyStats :=
  mkStats (checks_today d) v (warnings_today d) (total_downtime_minutes d)
          (average_response_time d) (response_times d).

Definition set_warnings_today (v : Z) (d : DailyStats) : DailyStats :=
  mkStats (checks_today d) (errors_today d) v (total_downtime_minutes d)
          (average_response_time d) (response_times d).

Definition set_total_downtime_minutes (v : Q) (d : DailyStats) : DailyStats :=
  mkStats (checks_today d) (errors_today d) (warnings_today d) v
          (average_response_time d) (response_times d).

Definition set_average_response_time (v : Q) (d : DailyStats) : DailyStats :=
  mkStats (checks_today d) (errors_today d) (warnings_today d)
          (total_downtime_minutes d) v (response_times d).

Definition set_response_times (v : list Q) (d : DailyStats) : DailyStats :=
  mkStats (checks_today d) (errors_today d) (warnings_today d)
          (total_downtime_minutes d) (average_response_time d) v.

(** ** StatisticsTracker *)

Definition reset_daily_stats : M unit := set_daily_stats zero_stats.

Definition update_daily_stats (health_status : HealthStatus) : M unit :=
  modify_stats (fun d => set_checks_today (checks_today d + 1) d) ;;
  (if Status_eqb (status health_status) error then
     modify_stats (fun d => set_errors_today (errors_today d + 1) d) ;;
     step <- lift (Py.truediv (inject_Z CHECK_INTERVAL) 60) ;;
     modify_stats
       (fun d => set_total_downtime_minutes (total_downtime_minutes d + step) d)
   else if Status_eqb (status health_status) warning then
     modify_stats (fun d => set_warnings_today (warnings_today d + 1) d)
   else ret tt) ;;
  match response_time health_status with
  | Some t =>
      when (Py.truthy (Some t))
        (modify_stats
           (fun d => set_response_times (response_times d ++ [t])%list d) ;;
         self <- get ;;
         let samples := response_times (daily_stats self) in
         mean <- lift (Py.truediv (Py.sum samples) (inject_Z (Py.len samples))) ;;
         modify_stats (set_average_response_time mean))
  | None => ret tt
  end.

(** ** ReportScheduler *)

Definition should_send_daily_report (now : datetime) : M bool :=
  self <- get ;;
  let current_date := date_of now in
  let current_time := time_of now in
  if date_ne (last_daily_report_date self) current_date
     && time_ge current_time DAILY_REPORT_TIME
  then ret true
  else ret false.

(** ** Notifier *)

(** The marker of a severity.  [app.py] has no second statement for
    DAILY_SUCCESS; it only sends ERROR, WARNING and INFO, where the two files
    choose alike. *)
Definition emoji_of (severity : Severity) : Emoji :=
  let emoji :=
    match severity with
    | ERROR => rotating_light
    | WARNING => warning_sign
    | _ => information
    end in
  match severity with
  | DAILY_SUCCESS => check_mark
  | _ => emoji
  end.

(** [post] is what the request to Telegram comes back with; both [except]
    clauses only log. *)
Definition send_telegram_alert (post : PostOutcome) (message : Message)
    (severity : Severity) : M unit :=
  emit (Post (emoji_of severity) severity message) ;;
  match post with
  | Delivered => emit (LogInfo (AlertSent severity))
  | PostRequestException e => emit (LogError (AlertFailed e))
  | PostOtherException e => emit (LogError (AlertUnexpected e))
  end.

(** ** The environment of one iteration of the loop *)

Record Env : Type := mkEnv {
  clock_due : datetime;      (* read by [should_send_daily_report] *)
  clock_report : datetime;   (* read for the date line of the report *)
  clock_sent : datetime;     (* read when the report date is stored *)
  primary : GetOutcome;
  endpoint : string -> EndpointOutcome;
  telegram : Severity -> Message -> PostOutcome
}.

Definition notify (env : Env) (message : Message) (severity : Severity)
  : M unit :=
  send_telegram_alert (telegram env severity message) message severity.

(** [x if x > 0] for the optional lines of the report. *)
Definition if_positive (x : Q) : option Q :=
  if Qle_bool x 0 then None else Some x.

Definition status_is (s : option Status) (v : Status) : bool :=
  match s with
  | Some s => Status_eqb s v
  | None => false
  end.

(** The first statement of [send_daily_success_report]:
    [100 - (errors_today / max(checks_today, 1) * 100)]. *)
Definition uptime_percentage (d : DailyStats) : Py.Exn + Q :=
  match Py.truediv (inject_Z (errors_today d))
                   (inject_Z (Z.max (checks_today d) 1)) with
  | inl e => inl e
  | inr ratio => inr (100 - ratio * 100)%Q
  end.

Definition send_daily_success_report (env : Env) : M unit :=
  self <- get ;;
  let d := daily_stats self in
  uptime_percentage <- lift (uptime_percentage d) ;;
  let message :=
    DailyReport (date_of (clock_report env))
                (status_is (last_status self) healthy)
                (checks_today d) uptime_percentage
                (errors_today d) (warnings_today d)
                (if_positive (total_downtime_minutes d))
                (if_positive (average_response_time d)) in
  notify env message DAILY_SUCCESS ;;
  set_last_daily_report_date (Some (date_of (clock_sent env))) ;;
  reset_daily_stats.

(** ** AlertDecider: the alert block of [monitor_loop] *)

Definition failed_endpoints (endpoints_status : list (string * EndpointStatus))
  : list string :=
  map fst
    (filter (fun entry => Status_eqb (ep_status (snd entry)) error)
            endpoints_status).

(** From [current_status = health_status['status']] up to and including
    [self.last_status = current_status]; the same text in both files. *)
Definition alert_block (env : Env) (health_status : HealthStatus)
    (endpoints_status : list (string * EndpointStatus)) : M unit :=
  let current_status := status health_status in
  (if Status_eqb current_status error then
     self <- get ;;
     set_consecutive_failures (consecutive_failures self + 1) ;;
     self <- get ;;
     when ((consecutive_failures self =? 1)
           || (consecutive_failures self mod 5 =? 0))
       (notify env
          (ApiDown (error_message health_status) (status_code health_status)
                   (consecutive_failures self)
                   (failed_endpoints endpoints_status))
          ERROR)
   else if Status_eqb current_status warning then
     notify env
       (ApiWarning (error_message health_status) (status_code health_status)
                   (response_time health_status))
       WARNING ;;
     set_consecutive_failures 0
   else
     self <- get ;;
     when ((status_is (last_status self) error
            || status_is (last_status self) warning)
           && Status_eqb current_status healthy)
       (notify env
          (ApiBackOnline (response_time health_status)
                         (consecutive_failures self))
          INFO) ;;
     set_consecutive_failures 0) ;;
  set_last_status (Some current_status).

(** The status line logged at the end of an iteration, and the pause. *)
Definition log_and_sleep (health_status : HealthStatus) : M unit :=
  emit (LogInfo
          (StatusLine (status health_status)
             (if Py.truthy (response_time health_status)
              then response_time health_status else None)
             (if Py.truthy_str (error_message health_status)
              then error_message health_status else None))) ;;
  emit (Sleep CHECK_INTERVAL).

(** [except Exception as e] at the loop boundary. *)
Definition on_exception (env : Env) (e : Py.Exn) : M unit :=
  emit (LogError (LoopError e)) ;;
  notify env (MonitorError e) ERROR ;;
  emit (Sleep CHECK_INTERVAL).

(** ** MonitorLoop *)

(** The monitor with daily reporting, [supabase_monitor.py]. *)
Module Monitoring.

(** The [try] body of one iteration, after the probe answered
    [health_status]. *)
Definition body_with (health_status : HealthStatus) (env : Env) : M unit :=
  due <- should_send_daily_report (clock_due env) ;;
  self <- get ;;
  when (due && status_is (last_status self) healthy)
    (send_daily_success_report env) ;;
  update_daily_stats health_status ;;
  let endpoints_status := check_specific_endpoints (endpoint env) in
  alert_block env health_status endpoints_status ;;
  log_and_sleep health_status.

Definition iteration_with (health_status : HealthStatus) (env : Env)
  : M unit :=
  try_except (body_with health_status env) (on_exception env).

(** One iteration of [while True]. *)
Definition iteration (env : Env) : M unit :=
  iteration_with (check_supabase_health (primary env)) env.

(** [monitor_loop] over the environments of its first iterations; [start]
    is the environment of the start-up notification. *)
Fixpoint iterations (envs : list Env) : M unit :=
  match envs with
  | [] => ret tt
  | env :: rest => iteration env ;; iterations rest
  end.

Definition monitor_loop (start : Env) (envs : list Env) : M unit :=
  emit (LogInfo Starting) ;;
  notify start MonitoringStarted INFO ;;
  iterations envs.

End Monitoring.

(** The baseline monitor, [app.py]. *)
Module Baseline.

Definition body_with (health_status : HealthStatus) (env : Env) : M unit :=
  let endpoints_status := check_specific_endpoints (endpoint env) in
  alert_block env health_status endpoints_status ;;
  log_and_sleep health_status.

Definition iteration_with (health_status : HealthStatus) (env : Env)
  : M unit :=
  try_except (body_with health_status env) (on_exception env).

Definition iteration (env : Env) : M unit :=
  iteration_with (check_supabase_health (primary env)) env.

Fixpoint iterations (envs : list Env) : M unit :=
  match envs with
  | [] => ret tt
  | env :: rest => iteration env ;; iterations rest
  end.

Definition monitor_loop (start : Env) (envs : list Env) : M unit :=
  emit (LogInfo Starting) ;;
  notify start MonitoringStarted INFO ;;
  iterations envs.

End Baseline.

(** ** Observations on a run *)

(** The notifications an event list carries. *)
Fixpoint posts (out : list Event) : list (Severity * Message) :=
  match out with
  | [] => []
  | Post _ severity message :: rest => (severity, message) :: posts rest
  | _ :: rest => posts rest
  end.

Definition Severity_eqb (a b : Severity) : bool :=
  match a, b with
  | ERROR, ERROR | WARNING, WARNING | INFO, INFO
  | DAILY_SUCCESS, DAILY_SUCCESS => true
  | _, _ => false
  end.

(** Whether a notification of the given severity was sent. *)
Definition emitted (severity : Severity) (out : list Event) : bool :=
  existsb (fun p => Severity_eqb (fst p) severity) (posts out).

Definition result_of {A : Type} (r : (Py.Exn + A) * Monitor * list Event)
  : Py.Exn + A := fst (fst r).
Definition state_of {A : Type} (r : (Py.Exn + A) * Monitor * list Event)
  : Monitor := snd (fst r).
Definition events_of {A : Type} (r : (Py.Exn + A) * Monitor * list Event)
  : list Event := snd r.

(** ** Notions of the specification *)

(** Arithmetic mean: the sum of the samples over their number. *)
Definition mean (xs : list Q) : Q :=
  (fold_right Qplus 0 xs / inject_Z (Z.of_nat (List.length xs)))%Q.

Definition mean_or_zero (xs : list Q) : Q :=
  match xs with
  | [] => 0%Q
  | _ => mean xs
  end.

(** The invariant of [DailyStatistics]: the stored average is the mean of the
    stored samples, and 0 while there is none. *)
Definition average_is_mean (d : DailyStats) : Prop :=
  average_response_time d == mean_or_zero (response_times d).

(** The operations of the statistics tracker. *)
Inductive StatsOp : Type :=
| Record_ (outcome : HealthStatus)
| Reset_.

Definition apply_op (op : StatsOp) : M unit :=
  match op with
  | Record_ outcome => update_daily_stats outcome
  | Reset_ => reset_daily_stats
  end.

Fixpoint apply_ops (ops : list StatsOp) : M unit :=
  match ops with
  | [] => ret tt
  | op :: rest => apply_op op ;; apply_ops rest
  end.

(** An outcome that carries nothing but a latency. *)
Definition sample (t : Q) : HealthStatus := mkHealth healthy (Some t) None None.

(** The alert decision of the specification: from the current classification
    [c], the previous one [p] and the failure count [n], the severity of the
    alert to emit, if any, and the next failure count. *)
Definition alert_decider (c : Status) (p : option Status) (n : Z)
  : option Severity * Z :=
  match c with
  | error =>
      (if (n + 1 =? 1) || ((n + 1) mod 5 =? 0) then Some ERROR else None,
       n + 1)
  | warning => (Some WARNING, 0)
  | healthy =>
      (if status_is p error || status_is p warning then Some INFO else None,
       0)
  | unknown => (None, 0)
  end.

Definition severities (out : list Event) : list Severity :=
  map fst (posts out).

Definition option_list {A : Type} (o : option A) : list A :=
  match o with
  | Some a => [a]
  | None => []
  end.

(** The alert state: the two fields the alert block reads and writes. *)
Definition same_alert_state (a b : Monitor) : Prop :=
  last_status a = last_status b /\
  consecutive_failures a = consecutive_failures b.

(** The outcome of one tick, on either monitor, once the probe has answered
    [h]. *)
Inductive tick (h : HealthStatus) (env : Env) (self : Monitor)
  : (Py.Exn + unit) * Monitor * list Event -> Prop :=
| tick_monitoring : tick h env self (Monitoring.iteration_with h env self)
| tick_baseline : tick h env self (Baseline.iteration_with h env self).

(** ** Start-up: [validate_config] and the main block *)

(** The four settings read from the environment; [os.getenv] gives [None]
    for a variable that is not set. *)
Record Config : Type := mkConfig {
  SUPABASE_URL : option string;
  SUPABASE_KEY : option string;
  TELEGRAM_BOT_TOKEN : option string;
  TELEGRAM_CHAT_ID : option string
}.

(** [not value or value == placeholder]. *)
Definition unconfigured (value : option string) (placeholder : string)
  : bool :=
  negb (Py.truthy_str value)
  || match value with
     | Some v => String.eqb v placeholder
     | None => false
     end.

(** The list [errors] at the end of the four tests. *)
Definition config_errors (cfg : Config) : list string :=
  let errors := [] in
  let errors :=
    if unconfigured (SUPABASE_URL cfg) "your_supabase_url_here"
    then (errors ++ ["SUPABASE_URL is not configured"])%list else errors in
  let errors :=
    if unconfigured (SUPABASE_KEY cfg) "your_supabase_anon_key_here"
    then (errors ++ ["SUPABASE_KEY is not configured"])%list else errors in
  let errors :=
    if unconfigured (TELEGRAM_BOT_TOKEN cfg) "your_telegram_bot_token_here"
    then (errors ++ ["TELEGRAM_BOT_TOKEN is not configured"])%list
    else errors in
  let errors :=
    if unconfigured (TELEGRAM_CHAT_ID cfg) "your_telegram_chat_id_here"
    then (errors ++ ["TELEGRAM_CHAT_ID is not configured"])%list
    else errors in
  errors.

(** [validate_config]: the lines printed, and the status of [sys.exit] when
    it is called. *)
Definition validate_config (cfg : Config) : list string * option Z :=
  match config_errors cfg with
  | [] => ([], None)
  | errors =>
      ("Configuration errors found:" :: map (fun e => "- " ++ e) errors,
       Some 1)
  end.

(** The main block: validate, create the monitor, run the loop.  The result
    holds the printed lines, the exit status if the process exited, and the
    run of the loop if it was started. *)
Definition main (loop : Env -> list Env -> M unit) (cfg : Config)
    (start : Env) (envs : list Env)
  : list string * option Z
    * option ((Py.Exn + unit) * Monitor * list Event) :=
  match validate_config cfg with
  | (printed, Some code) => (printed, Some code, None)
  | (printed, None) => (printed, None, Some (loop start envs init))
  end.

(** ** Notions used to state properties of runs *)

(** A setting that passes validation: set, not empty, not the placeholder. *)
Definition configured (value : option string) (placeholder : string) : Prop :=
  exists v, value = Some v /\ v <> "" /\ v <> placeholder.

(** Whether a tick of the reporting monitor sends the daily report. *)
Definition reports (env : Env) (self : Monitor) : bool :=
  date_ne (last_daily_report_date self) (date_of (clock_due env))
  && time_ge (time_of (clock_due env)) DAILY_REPORT_TIME
  && status_is (last_status self) healthy.

(** The notification the decision table calls for, with its content. *)
Definition alert_message (h : HealthStatus)
    (eps : list (string * EndpointStatus)) (self : Monitor)
  : option (Severity * Message) :=
  match fst (alert_decider (status h) (last_status self)
               (consecutive_failures self)) with
  | Some ERROR =>
      Some (ERROR,
            ApiDown (error_message h) (status_code h)
                    (consecutive_failures self + 1) (failed_endpoints eps))
  | Some WARNING =>
      Some (WARNING,
            ApiWarning (error_message h) (status_code h) (response_time h))
  | Some INFO =>
      Some (INFO,
            ApiBackOnline (response_time h) (consecutive_failures self))
  | _ => None
  end.

(** The classifications of a run of ticks. *)
Definition classifications (envs : list Env) : list Status :=
  map (fun env => status (check_supabase_health (primary env))) envs.

(** The number of errors a list of classifications starts with, and ends
    with. *)
Fixpoint leading_errors (l : list Status) : Z :=
  match l with
  | error :: rest => 1 + leading_errors rest
  | _ => 0
  end.

Definition trailing_errors (l : list Status) : Z := leading_errors (rev l).

(** How many notifications of a severity an event list carries. *)
Definition count_severity (severity : Severity) (out : list Event) : Z :=
  Z.of_nat
    (List.length (filter (fun s => Severity_eqb s severity) (severities out))).

(** Counters that fit together: no counter is negative, errors and warnings
    are distinct checks, there is at most one sample per check, and the
    downtime is one minute per error. *)
Definition stats_consistent (d : DailyStats) : Prop :=
  0 <= errors_today d /\ 0 <= warnings_today d /\
  errors_today d + warnings_today d <= checks_today d /\
  Py.len (response_times d) <= checks_today d /\
  (total_downtime_minutes d == inject_Z (errors_today d))%Q.

(** Inputs for examples: a clock reading at noon, all auxiliary endpoints
    up, every notification delivered. *)
Definition sample_clock : datetime :=
  mkDatetime (mkDate 2025 6 1) (mkTime 12 0 0 0).

Definition sample_env (get : GetOutcome) : Env :=
  mkEnv sample_clock sample_clock sample_clock get
        (fun _ => EndpointResponded 200) (fun _ _ => Delivered).

(** A notification other than the one of the exception handler. *)
Definition not_monitor_error (p : Severity * Message) : Prop :=
  forall e, snd p <> MonitorError e.

(** All four settings pass validation. *)
Definition all_configured (cfg : Config) : Prop :=
  configured (SUPABASE_URL cfg) "your_supabase_url_here" /\
  configured (SUPABASE_KEY cfg) "your_supabase_anon_key_here" /\
  configured (TELEGRAM_BOT_TOKEN cfg) "your_telegram_bot_token_here" /\
  configured (TELEGRAM_CHAT_ID cfg) "your_telegram_chat_id_here".

(** * Properties *)

(** ** Enumerations *)

Lemma Status_eqb_spec (a b : Status) : reflect (a = b) (Status_eqb a b).
Proof. destruct a, b; constructor; congruence. Qed.

Lemma Severity_eqb_spec (a b : Severity) : reflect (a = b) (Severity_eqb a b).
Proof. destruct a, b; constructor; congruence. Qed.

(** ** HealthProbe *)

Section Probe.

Variable code : Z.
Variable elapsed : Q.

Let h0 : HealthStatus :=
  set_status_code code
    (set_response_time (Py.round2 (elapsed * 1000)) initial_health).

Lemma probe_code_classify :
  probe_code code elapsed =
  (status (classify code h0), error_message (classify code h0)).
Proof. reflexivity. Qed.

Lemma classify_200 : code = 200 -> probe_code code elapsed = (healthy, None).
Proof. intros ->. reflexivity. Qed.

Lemma classify_5xx :
  500 <= code ->
  probe_code code elapsed =
  (error, Some ("Internal server error: " ++ Py.str_int code)).
Proof.
  intros H. rewrite probe_code_classify. unfold classify.
  destruct (Z.eqb_spec code 200); [lia|].
  destruct (Z.geb_spec code 500); [reflexivity|lia].
Qed.

Lemma classify_below_500 :
  code <> 200 -> code < 500 ->
  classify code h0 =
  if code =? 401 then
    set_error_message "Authentication failed - check your API key"
      (set_status error h0)
  else if code =? 403 then
    set_error_message "Access forbidden - check permissions"
      (set_status error h0)
  else if code >=? 400 then
    set_error_message ("Client error: " ++ Py.str_int code)
      (set_status warning h0)
  else
    set_error_message ("Unexpected status code: " ++ Py.str_int code)
      (set_status warning h0).
Proof.
  intros Hne Hlt. unfold classify.
  destruct (Z.eqb_spec code 200); [lia|].
  destruct (Z.geb_spec code 500); [lia|reflexivity].
Qed.

Lemma classify_sound :
  classify_table code (fst (probe_code code elapsed))
                      (snd (probe_code code elapsed)).
Proof.
  destruct (Z.eq_dec code 200) as [E|Hne].
  { rewrite (classify_200 E). now constructor. }
  destruct (Z_le_gt_dec 500 code) as [Hge|Hlt].
  { rewrite (classify_5xx Hge). now constructor. }
  rewrite probe_code_classify, classify_below_500 by lia.
  destruct (Z.eqb_spec code 401); [now apply row_401|].
  destruct (Z.eqb_spec code 403); [now apply row_403|].
  destruct (Z.geb_spec code 400); cbn.
  - apply row_4xx; lia.
  - apply row_other; lia.
Qed.

Lemma classify_table_functional s m s' m' :
  classify_table code s m -> classify_table code s' m' ->
  (s, m) = (s', m').
Proof.
  intros H H'; destruct H; destruct H'; try reflexivity; lia.
Qed.

End Probe.

(** C2: on a response, the classification and the message are a function of
    the status code alone, and that function is the table of the primary
    check: 200 is healthy; 500 and above is an error ("Internal server
    error: code"); 401 and 403 are errors with their fixed messages; the rest
    of 400..499 is a warning ("Client error: code"); everything else is a
    warning ("Unexpected status code: code"). *)
Theorem classify_is_table (code : Z) (elapsed : Q) (s : Status)
    (m : option string) :
  classify_table code s m <-> probe_code code elapsed = (s, m).
Proof.
  split.
  - intros H.
    rewrite (surjective_pairing (probe_code code elapsed)).
    symmetry. eapply classify_table_functional; [exact H|].
    apply classify_sound.
  - intros H. pose proof (classify_sound code elapsed) as T.
    rewrite H in T. exact T.
Qed.

(** C10: the dictionary starts as 'unknown', and whatever the request does
    (a response with any code, or any of the four caught exceptions) the
    returned status is healthy, warning or error. *)
Theorem check_never_unknown :
  status initial_health = unknown /\
  forall get : GetOutcome,
    let s := status (check_supabase_health get) in
    s = healthy \/ s = warning \/ s = error.
Proof.
  split; [reflexivity|].
  intros [code elapsed|e]; cbv zeta.
  - pose proof (classify_sound code elapsed) as T.
    change (status (check_supabase_health (Responded code elapsed)))
      with (fst (probe_code code elapsed)).
    destruct T; cbn; auto.
  - destruct e; cbn; auto.
Qed.

(** ** ReportScheduler *)

Lemma date_eqb_eq (a b : date) : date_eqb a b = true <-> a = b.
Proof.
  unfold date_eqb. rewrite !andb_true_iff, !Z.eqb_eq.
  destruct a, b; cbn. split.
  - intros [[-> ->] ->]. reflexivity.
  - intros [= -> -> ->]. auto.
Qed.

Lemma date_ne_spec (last : option date) (current : date) :
  date_ne last current = true <-> last <> Some current.
Proof.
  destruct last as [d|]; cbn.
  - rewrite negb_true_iff, <- not_true_iff_false, date_eqb_eq.
    split; congruence.
  - split; [discriminate|reflexivity].
Qed.

(** On times the clock can read, the tuple order is the order of the
    microseconds since midnight. *)
Lemma time_cmp_micros (a b : dt_time) :
  valid_time a -> valid_time b ->
  time_cmp a b = (micros_of_time a ?= micros_of_time b).
Proof.
  unfold valid_time, time_cmp, micros_of_time.
  intros (Ha & Hma & Hsa & Hua) (Hb & Hmb & Hsb & Hub).
  symmetry.
  destruct (Z.compare_spec (hour a) (hour b)) as [Eh|Lh|Gh];
    [|apply Z.compare_lt_iff; nia|apply Z.compare_gt_iff; nia].
  destruct (Z.compare_spec (minute a) (minute b)) as [Em|Lm|Gm];
    [|apply Z.compare_lt_iff; nia|apply Z.compare_gt_iff; nia].
  destruct (Z.compare_spec (second a) (second b)) as [Es|Ls|Gs];
    [|apply Z.compare_lt_iff; nia|apply Z.compare_gt_iff; nia].
  rewrite Eh, Em, Es.
  destruct (Z.compare_spec (microsecond a) (microsecond b)) as [Eu|Lu|Gu].
  - apply Z.compare_eq_iff. lia.
  - apply Z.compare_lt_iff. lia.
  - apply Z.compare_gt_iff. lia.
Qed.

Lemma valid_DAILY_REPORT_TIME : valid_time DAILY_REPORT_TIME.
Proof. unfold valid_time; cbn; lia. Qed.

Lemma time_ge_report_time (t : dt_time) :
  valid_time t ->
  time_ge t DAILY_REPORT_TIME = true <-> 32400000000 <= micros_of_time t.
Proof.
  intros Ht. unfold time_ge.
  rewrite (time_cmp_micros t DAILY_REPORT_TIME Ht valid_DAILY_REPORT_TIME).
  change (micros_of_time DAILY_REPORT_TIME) with 32400000000.
  destruct (Z.compare_spec (micros_of_time t) 32400000000);
    split; intros; try lia; try discriminate; reflexivity.
Qed.

(** C5: reading a valid time of day, [should_send_daily_report] answers
    without touching the monitor, and answers true exactly when the stored
    report date is not the date read (in particular when none is stored) and
    the time read is 09:00:00 or later; so it is false whenever the stored
    date is the date read, and false at any time before 09:00 (any hour
    below 9). *)
Theorem report_due_iff (now : datetime) (self : Monitor) :
  valid_time (time_of now) ->
  exists due : bool,
    should_send_daily_report now self = (inr due, self, []) /\
    (due = true <->
       last_daily_report_date self <> Some (date_of now) /\
       micros_of_time (mkTime 9 0 0 0) <= micros_of_time (time_of now)) /\
    (last_daily_report_date self = Some (date_of now) -> due = false) /\
    (micros_of_time (time_of now) < micros_of_time (mkTime 9 0 0 0) ->
       due = false) /\
    (hour (time_of now) < 9 -> due = false).
Proof.
  intros Ht.
  pose proof (date_ne_spec (last_daily_report_date self) (date_of now)) as Hd.
  pose proof (time_ge_report_time (time_of now) Ht) as Hg.
  assert (Hh : hour (time_of now) < 9 ->
               micros_of_time (time_of now) < 32400000000).
  { unfold valid_time in Ht. unfold micros_of_time. lia. }
  change (micros_of_time (mkTime 9 0 0 0)) with 32400000000.
  unfold should_send_daily_report, bind, get. cbn.
  destruct (date_ne (last_daily_report_date self) (date_of now));
    destruct (time_ge (time_of now) DAILY_REPORT_TIME); cbn;
    eexists; (split; [reflexivity|]);
    (split; [|split; [|split]]);
    intuition (try discriminate; try congruence; try lia).
Qed.

Lemma report_due_iff_witness :
  (exists due : bool,
     should_send_daily_report
       (mkDatetime (mkDate 2025 6 1) (mkTime 9 0 0 0))
       (mkMonitor (Some healthy) 0 (Some (mkDate 2025 5 31)) zero_stats)
     = (inr due,
        mkMonitor (Some healthy) 0 (Some (mkDate 2025 5 31)) zero_stats, []) /\
     due = true) /\
  (exists due : bool,
     should_send_daily_report
       (mkDatetime (mkDate 2025 6 1) (mkTime 8 59 59 999999))
       (mkMonitor (Some healthy) 0 (Some (mkDate 2025 5 31)) zero_stats)
     = (inr due,
        mkMonitor (Some healthy) 0 (Some (mkDate 2025 5 31)) zero_stats, []) /\
     due = false).
Proof.
  split.
  - destruct (@report_due_iff
                (mkDatetime (mkDate 2025 6 1) (mkTime 9 0 0 0))
                (mkMonitor (Some healthy) 0 (Some (mkDate 2025 5 31))
                   zero_stats))
      as (due & Hrun & Hiff & _).
    + unfold valid_time; cbn; lia.
    + exists due. split; [exact Hrun|].
      apply Hiff. split; [discriminate|cbn; lia].
  - destruct (@report_due_iff
                (mkDatetime (mkDate 2025 6 1) (mkTime 8 59 59 999999))
                (mkMonitor (Some healthy) 0 (Some (mkDate 2025 5 31))
                   zero_stats))
      as (due & Hrun & _ & _ & Hbefore & _).
    + unfold valid_time; cbn; lia.
    + exists due. split; [exact Hrun|].
      apply Hbefore. cbn; lia.
Defined.

(** ** Running the methods *)

Ltac monad_unfold :=
  unfold notify, send_telegram_alert, reset_daily_stats, modify_stats,
    set_daily_stats, set_last_status,
    set_consecutive_failures, set_last_daily_report_date,
    try_except, bind, get, put, emit, lift, when, ret,
    set_checks_today, set_errors_today, set_warnings_today,
    set_total_downtime_minutes, set_average_response_time, set_response_times.

Ltac monad_cbn :=
  cbn [status response_time error_message status_code Status_eqb Py.truthy
       negb andb orb status_is
       daily_stats last_status consecutive_failures last_daily_report_date
       checks_today errors_today warnings_today total_downtime_minutes
       average_response_time response_times app fst snd
       result_of state_of events_of].

Lemma truediv_ok (a b : Q) :
  Qeq_bool b 0 = false -> Py.truediv a b = inr (a / b)%Q.
Proof. intros H. unfold Py.truediv. now rewrite H. Qed.

Lemma len_nonzero {A : Type} (xs : list A) (x : A) :
  Qeq_bool (inject_Z (Py.len (xs ++ [x])%list)) 0 = false.
Proof.
  unfold Py.len. rewrite length_app, Nat.add_comm. cbn [length Nat.add].
  apply not_true_iff_false. intros H. apply Qeq_bool_eq in H.
  unfold Qeq in H. cbn in H. lia.
Qed.

Lemma max_one_nonzero (n : Z) : Qeq_bool (inject_Z (Z.max n 1)) 0 = false.
Proof.
  apply not_true_iff_false. intros H. apply Qeq_bool_eq in H.
  unfold Qeq in H. cbn in H. lia.
Qed.

(** ** StatisticsTracker *)

Lemma fold_left_Qplus (xs : list Q) (a : Q) :
  (fold_left Qplus xs a == a + fold_right Qplus 0 xs)%Q.
Proof.
  revert a. induction xs as [|x xs IH]; intros a; cbn.
  - ring.
  - rewrite IH. ring.
Qed.

(** [sum(xs) / len(xs)] is the arithmetic mean. *)
Lemma sum_over_len_is_mean (xs : list Q) :
  (Py.sum xs / inject_Z (Py.len xs) == mean xs)%Q.
Proof.
  unfold Py.sum, Py.len, mean. rewrite fold_left_Qplus.
  apply Qdiv_comp; [ring|reflexivity].
Qed.

(** What [update_daily_stats] leaves behind, field by field. *)
Lemma update_daily_stats_run (h : HealthStatus) (self : Monitor) :
  exists d' : DailyStats,
    update_daily_stats h self =
      (inr tt,
       mkMonitor (last_status self) (consecutive_failures self)
                 (last_daily_report_date self) d', []) /\
    checks_today d' = checks_today (daily_stats self) + 1 /\
    errors_today d' =
      errors_today (daily_stats self)
      + (if Status_eqb (status h) error then 1 else 0) /\
    warnings_today d' =
      warnings_today (daily_stats self)
      + (if Status_eqb (status h) warning then 1 else 0) /\
    (total_downtime_minutes d' ==
       total_downtime_minutes (daily_stats self)
       + (if Status_eqb (status h) error
          then inject_Z CHECK_INTERVAL / 60 else 0))%Q /\
    match response_time h with
    | Some t =>
        if Qeq_bool t 0 then
          response_times d' = response_times (daily_stats self) /\
          average_response_time d' = average_response_time (daily_stats self)
        else
          response_times d' = (response_times (daily_stats self) ++ [t])%list /\
          average_response_time d' =
            (Py.sum (response_times d') / inject_Z (Py.len (response_times d')))%Q
    | None =>
        response_times d' = response_times (daily_stats self) /\
        average_response_time d' = average_response_time (daily_stats self)
    end.
Proof.
  destruct self as [ls cf ldr [c e w dt avg rts]].
  destruct h as [s [t|] em sc]; destruct s;
    unfold update_daily_stats; monad_unfold; monad_cbn;
    try (destruct (Qeq_bool t 0) eqn:Ht; monad_cbn);
    rewrite ?truediv_ok by (apply len_nonzero || reflexivity); monad_cbn;
    eexists; (split; [reflexivity|]); monad_cbn;
    repeat split; try lia; try ring.
Qed.

Lemma update_preserves_average (h : HealthStatus) (self : Monitor) :
  average_is_mean (daily_stats self) ->
  average_is_mean (daily_stats (state_of (update_daily_stats h self))).
Proof.
  intros Inv.
  destruct (update_daily_stats_run h self)
    as (d' & -> & _ & _ & _ & _ & Hs).
  monad_cbn. unfold average_is_mean in *.
  destruct (response_time h) as [t|].
  - destruct (Qeq_bool t 0).
    + destruct Hs as [-> ->]. exact Inv.
    + destruct Hs as [Hr ->]. rewrite sum_over_len_is_mean, Hr.
      destruct (response_times (daily_stats self)); reflexivity.
  - destruct Hs as [-> ->]. exact Inv.
Qed.

Lemma apply_op_run (op : StatsOp) (self : Monitor) :
  average_is_mean (daily_stats self) ->
  exists self', apply_op op self = (inr tt, self', []) /\
                average_is_mean (daily_stats self').
Proof.
  intros Inv. destruct op as [h|]; cbn [apply_op].
  - pose proof (update_preserves_average h self Inv) as P.
    destruct (update_daily_stats_run h self) as (d' & E & _).
    rewrite E in P |- *. eexists; split; [reflexivity|exact P].
  - monad_unfold. eexists; split; [reflexivity|].
    unfold average_is_mean; cbn. reflexivity.
Qed.

Lemma apply_ops_run (ops : list StatsOp) (self : Monitor) :
  average_is_mean (daily_stats self) ->
  exists self', apply_ops ops self = (inr tt, self', []) /\
                average_is_mean (daily_stats self').
Proof.
  revert self. induction ops as [|op rest IH]; intros self Inv.
  - exists self. split; [reflexivity|exact Inv].
  - destruct (apply_op_run op self Inv) as (s1 & E1 & Inv1).
    destruct (IH s1 Inv1) as (s2 & E2 & Inv2).
    exists s2. split; [|exact Inv2].
    cbn [apply_ops]. unfold bind. rewrite E1, E2. reflexivity.
Qed.

(** C6, as the code has it: recording an outcome never raises, touches only
    the statistics, adds 1 to the number of checks; on an error adds 1 to the
    errors and [CHECK_INTERVAL / 60] (one minute) to the downtime; on a
    warning adds 1 to the warnings; and when the outcome carries a latency
    other than 0, appends it to the samples and stores the arithmetic mean of
    all samples as the average.  A latency of 0, like a missing one, leaves
    samples and average as they were. *)
Theorem record_outcome (h : HealthStatus) (self : Monitor) :
  exists d' : DailyStats,
    update_daily_stats h self =
      (inr tt,
       mkMonitor (last_status self) (consecutive_failures self)
                 (last_daily_report_date self) d', []) /\
    checks_today d' = checks_today (daily_stats self) + 1 /\
    errors_today d' =
      errors_today (daily_stats self)
      + (if Status_eqb (status h) error then 1 else 0) /\
    (total_downtime_minutes d' ==
       total_downtime_minutes (daily_stats self)
       + (if Status_eqb (status h) error
          then inject_Z CHECK_INTERVAL / 60 else 0))%Q /\
    (inject_Z CHECK_INTERVAL / 60 == 1)%Q /\
    warnings_today d' =
      warnings_today (daily_stats self)
      + (if Status_eqb (status h) warning then 1 else 0) /\
    match response_time h with
    | Some t =>
        if Qeq_bool t 0 then
          response_times d' = response_times (daily_stats self) /\
          average_response_time d' = average_response_time (daily_stats self)
        else
          response_times d' = (response_times (daily_stats self) ++ [t])%list /\
          (average_response_time d' == mean (response_times d'))%Q
    | None =>
        response_times d' = response_times (daily_stats self) /\
        average_response_time d' = average_response_time (daily_stats self)
    end.
Proof.
  destruct (update_daily_stats_run h self)
    as (d' & E & Hc & He & Hw & Hd & Hs).
  exists d'. repeat (split; [assumption|]).
  split; [reflexivity|].
  split; [assumption|].
  {
    destruct (response_time h) as [t|]; [|exact Hs].
    destruct (Qeq_bool t 0); [exact Hs|].
    destruct Hs as [Hr Ha]. split; [exact Hr|].
    rewrite Ha. apply sum_over_len_is_mean.
  }
Qed.

(** C6 as stated fails: a response whose elapsed time rounds to 0.00 ms
    yields an outcome that carries a latency, and recording it appends
    nothing. *)
Lemma zero_latency_not_recorded :
  response_time (check_supabase_health (Responded 200 (1 # 1000000)))
    = Some (0 # 100)%Q /\
  response_times (daily_stats init) = [] /\
  response_times
    (daily_stats
       (state_of
          (update_daily_stats
             (check_supabase_health (Responded 200 (1 # 1000000))) init)))
    = [].
Proof. repeat split; vm_compute; reflexivity. Qed.

(** C7: the stored average is the mean of the stored samples, and 0 while
    there is none, after any sequence of record and reset operations on a
    new monitor (none of which raises), and after a reset of any monitor;
    recording 100, 200 and 300 leaves those three samples and the average
    200. *)
Theorem average_invariant :
  (forall ops : list StatsOp,
     result_of (apply_ops ops init) = inr tt /\
     average_is_mean (daily_stats (state_of (apply_ops ops init)))) /\
  (forall self : Monitor,
     average_is_mean (daily_stats (state_of (reset_daily_stats self)))) /\
  response_times
    (daily_stats
       (state_of
          (apply_ops [Record_ (sample 100); Record_ (sample 200);
                      Record_ (sample 300)] init)))
    = [100; 200; 300]%Q /\
  (average_response_time
     (daily_stats
        (state_of
           (apply_ops [Record_ (sample 100); Record_ (sample 200);
                       Record_ (sample 300)] init)))
   == 200)%Q.
Proof.
  split; [|split; [|split]].
  - intros ops.
    assert (Inv0 : average_is_mean (daily_stats init))
      by (unfold average_is_mean; cbn; reflexivity).
    destruct (apply_ops_run ops init Inv0) as (s & -> & Inv).
    split; [reflexivity|exact Inv].
  - intros self. unfold average_is_mean. cbn. reflexivity.
  - vm_compute. reflexivity.
  - vm_compute. reflexivity.
Qed.

(** C8: the uptime percentage never raises and is
    [100 - errors_today / max(checks_today, 1) * 100] for all values of the
    two counters; with no check the divisor is 1; 100 checks with 5 errors
    give 95. *)
Theorem uptime_percentage_formula :
  (forall d : DailyStats,
     exists q : Q,
       uptime_percentage d = inr q /\
       (q == 100 - inject_Z (errors_today d)
                   / inject_Z (Z.max (checks_today d) 1) * 100)%Q) /\
  (forall (e w : Z) (t a : Q) (r : list Q),
     exists q : Q,
       uptime_percentage (mkStats 0 e w t a r) = inr q /\
       (q == 100 - inject_Z e / 1 * 100)%Q) /\
  (forall (w : Z) (t a : Q) (r : list Q),
     exists q : Q,
       uptime_percentage (mkStats 100 5 w t a r) = inr q /\
       (q == 95)%Q).
Proof.
  split; [|split].
  - intros d. unfold uptime_percentage.
    rewrite truediv_ok by apply max_one_nonzero.
    eexists; split; reflexivity.
  - intros e w t a r. unfold uptime_percentage.
    rewrite truediv_ok by apply max_one_nonzero.
    eexists; split; reflexivity.
  - intros w t a r. unfold uptime_percentage.
    rewrite truediv_ok by apply max_one_nonzero.
    eexists; split; reflexivity.
Qed.

(** ** Events *)

Lemma posts_app (a b : list Event) : posts (a ++ b) = (posts a ++ posts b)%list.
Proof.
  induction a as [|e a IH]; [reflexivity|].
  destruct e; cbn; rewrite IH; reflexivity.
Qed.

Lemma severities_app (a b : list Event) :
  severities (a ++ b) = (severities a ++ severities b)%list.
Proof. unfold severities. now rewrite posts_app, map_app. Qed.

Lemma emitted_severities (severity : Severity) (out : list Event) :
  emitted severity out = true <-> In severity (severities out).
Proof.
  unfold emitted, severities. rewrite existsb_exists, in_map_iff.
  split; intros (p & H1 & H2); exists p.
  - destruct (Severity_eqb_spec (fst p) severity); [auto|discriminate].
  - subst. split; [assumption|].
    destruct (Severity_eqb_spec (fst p) (fst p)); congruence.
Qed.

Lemma send_telegram_alert_run (post : PostOutcome) (message : Message)
    (severity : Severity) (self : Monitor) :
  exists out,
    send_telegram_alert post message severity self = (inr tt, self, out) /\
    posts out = [(severity, message)].
Proof.
  destruct post; unfold send_telegram_alert; monad_unfold;
    eexists; split; reflexivity.
Qed.

(** ** The monad *)

Lemma bind_run {A B : Type} (m : M A) (k : A -> M B) (self s1 s2 : Monitor)
    (a : A) (r : Py.Exn + B) (o1 o2 : list Event) :
  m self = (inr a, s1, o1) ->
  k a s1 = (r, s2, o2) ->
  bind m k self = (r, s2, (o1 ++ o2)%list).
Proof. intros E1 E2. unfold bind. now rewrite E1, E2. Qed.

Lemma try_except_ok {A : Type} (m : M A) (h : Py.Exn -> M A)
    (self s1 : Monitor) (a : A) (o1 : list Event) :
  m self = (inr a, s1, o1) ->
  try_except m h self = (inr a, s1, o1).
Proof. intros E. unfold try_except. now rewrite E. Qed.

(** ** Daily report *)

Lemma send_daily_success_report_run (env : Env) (self : Monitor) :
  exists out message,
    send_daily_success_report env self =
      (inr tt,
       mkMonitor (last_status self) (consecutive_failures self)
                 (Some (date_of (clock_sent env))) zero_stats,
       out) /\
    posts out = [(DAILY_SUCCESS, message)].
Proof.
  destruct self as [ls cf ldr d].
  unfold send_daily_success_report.
  unfold bind at 1, get at 1. cbn beta iota. monad_cbn.
  unfold uptime_percentage.
  rewrite truediv_ok by apply max_one_nonzero.
  unfold bind at 1, lift at 1. cbn beta iota. monad_cbn.
  set (message := DailyReport _ _ _ _ _ _ _ _).
  destruct (send_telegram_alert_run (telegram env DAILY_SUCCESS message)
              message DAILY_SUCCESS (mkMonitor ls cf ldr d)) as (out & E & P).
  exists (out ++ [])%list, message. split.
  - unfold notify. unfold bind at 1. rewrite E.
    monad_unfold. monad_cbn. rewrite !app_nil_r. reflexivity.
  - now rewrite app_nil_r.
Qed.

(** C9: sending the daily report never raises and, whatever the request to
    Telegram comes back with (delivered, a request exception, any other
    exception), stores the date read after the dispatch as the last report
    date and leaves every statistic at its zero state; the classification
    and the failure count are untouched, and one DAILY_SUCCESS notification
    was posted. *)
Theorem report_resets_statistics (env : Env) (self : Monitor) :
  let r := send_daily_success_report env self in
  result_of r = inr tt /\
  last_daily_report_date (state_of r) = Some (date_of (clock_sent env)) /\
  daily_stats (state_of r) = mkStats 0 0 0 0 0 [] /\
  last_status (state_of r) = last_status self /\
  consecutive_failures (state_of r) = consecutive_failures self /\
  severities (events_of r) = [DAILY_SUCCESS].
Proof.
  destruct (send_daily_success_report_run env self) as (out & message & E & P).
  cbv zeta. rewrite E. monad_cbn. unfold severities. rewrite P.
  repeat split.
Qed.

(** ** AlertDecider *)

(** The alert block refines the decision table of the specification. *)
Lemma alert_block_run (env : Env) (h : HealthStatus)
    (eps : list (string * EndpointStatus)) (self : Monitor) :
  exists out,
    alert_block env h eps self =
      (inr tt,
       mkMonitor (Some (status h))
         (snd (alert_decider (status h) (last_status self)
                 (consecutive_failures self)))
         (last_daily_report_date self) (daily_stats self),
       out) /\
    severities out =
      option_list
        (fst (alert_decider (status h) (last_status self)
                (consecutive_failures self))).
Proof.
  destruct self as [ls cf ldr d]. destruct h as [s rt em sc].
  unfold alert_block, alert_decider. monad_cbn.
  destruct s; monad_cbn.
  - (* unknown *)
    monad_unfold. monad_cbn. rewrite andb_false_r.
    eexists; split; reflexivity.
  - (* healthy *)
    monad_unfold. monad_cbn. rewrite andb_true_r.
    destruct (status_is ls error || status_is ls warning).
    + destruct (telegram env INFO _); eexists; split; reflexivity.
    + eexists; split; reflexivity.
  - (* warning *)
    monad_unfold. monad_cbn.
    destruct (telegram env WARNING _); eexists; split; reflexivity.
  - (* error *)
    monad_unfold. monad_cbn.
    destruct ((cf + 1 =? 1) || ((cf + 1) mod 5 =? 0)).
    + destruct (telegram env ERROR _); eexists; split; reflexivity.
    + eexists; split; reflexivity.
Qed.

Lemma log_and_sleep_run (h : HealthStatus) (self : Monitor) :
  exists out,
    log_and_sleep h self = (inr tt, self, out) /\ severities out = [].
Proof.
  unfold log_and_sleep. monad_unfold. eexists; split; reflexivity.
Qed.

Lemma should_send_daily_report_run (now : datetime) (self : Monitor) :
  exists due, should_send_daily_report now self = (inr due, self, []).
Proof.
  unfold should_send_daily_report. monad_unfold.
  destruct (_ && _); eexists; reflexivity.
Qed.

Lemma report_phase_run (env : Env) (due : bool) (self : Monitor) :
  exists s1 out,
    when (due && status_is (last_status self) healthy)
         (send_daily_success_report env) self = (inr tt, s1, out) /\
    same_alert_state s1 self /\
    (severities out = [] \/ severities out = [DAILY_SUCCESS]).
Proof.
  unfold when. destruct (due && _).
  - destruct (send_daily_success_report_run env self)
      as (out & message & E & P).
    eexists _, out. split; [exact E|]. split; [split; reflexivity|].
    right. unfold severities. now rewrite P.
  - exists self, []. split; [reflexivity|]. split; [split; reflexivity|].
    now left.
Qed.

(** ** MonitorLoop *)

(** One iteration of the monitor with daily reporting: it does not raise;
    the alert it sends and the next failure count are those of the decision
    table on the state the iteration started from; a daily report may come
    first. *)
Lemma monitoring_iteration_run (h : HealthStatus) (env : Env)
    (self : Monitor) :
  exists s' out pre,
    Monitoring.iteration_with h env self = (inr tt, s', out) /\
    last_status s' = Some (status h) /\
    consecutive_failures s' =
      snd (alert_decider (status h) (last_status self)
             (consecutive_failures self)) /\
    severities out =
      (pre ++ option_list
                (fst (alert_decider (status h) (last_status self)
                        (consecutive_failures self))))%list /\
    (pre = [] \/ pre = [DAILY_SUCCESS]).
Proof.
  destruct (should_send_daily_report_run (clock_due env) self) as (due & E0).
  destruct (report_phase_run env due self) as (s1 & o1 & E1 & [Hls Hcf] & Hpre).
  destruct (update_daily_stats_run h s1) as (d' & E2 & _).
  set (s2 := mkMonitor _ _ _ d') in E2.
  destruct (alert_block_run env h (check_specific_endpoints (endpoint env)) s2)
    as (o3 & E3 & Hs3).
  set (s3 := mkMonitor _ _ _ _) in E3.
  destruct (log_and_sleep_run h s3) as (o4 & E4 & Hs4).
  exists s3, ([] ++ [] ++ o1 ++ [] ++ o3 ++ o4)%list, (severities o1).
  split; [|split; [|split; [|split]]].
  - unfold Monitoring.iteration_with. apply try_except_ok.
    unfold Monitoring.body_with.
    eapply bind_run; [exact E0|].
    eapply bind_run; [reflexivity|].
    eapply bind_run; [exact E1|].
    eapply bind_run; [exact E2|].
    eapply bind_run; [exact E3|exact E4].
  - reflexivity.
  - subst s3 s2. cbn. now rewrite Hls, Hcf.
  - cbn [app]. rewrite !severities_app, Hs3, Hs4, app_nil_r.
    subst s2. cbn. now rewrite Hls, Hcf.
  - exact Hpre.
Qed.

(** One iteration of the baseline monitor. *)
Lemma baseline_iteration_run (h : HealthStatus) (env : Env) (self : Monitor) :
  exists s' out,
    Baseline.iteration_with h env self = (inr tt, s', out) /\
    last_status s' = Some (status h) /\
    consecutive_failures s' =
      snd (alert_decider (status h) (last_status self)
             (consecutive_failures self)) /\
    severities out =
      option_list
        (fst (alert_decider (status h) (last_status self)
                (consecutive_failures self))).
Proof.
  destruct (alert_block_run env h (check_specific_endpoints (endpoint env))
              self) as (o3 & E3 & Hs3).
  set (s3 := mkMonitor _ _ _ _) in E3.
  destruct (log_and_sleep_run h s3) as (o4 & E4 & Hs4).
  exists s3, (o3 ++ o4)%list.
  split; [|split; [|split]].
  - unfold Baseline.iteration_with. apply try_except_ok.
    unfold Baseline.body_with.
    eapply bind_run; [exact E3|exact E4].
  - reflexivity.
  - reflexivity.
  - now rewrite severities_app, Hs3, Hs4, app_nil_r.
Qed.

(** What a tick does, on either monitor, in the terms of the claims: whether
    it raised, the state it leaves, and the severities it posted. *)
Lemma iteration_summary (h : HealthStatus) (env : Env) (self : Monitor)
    (r : (Py.Exn + unit) * Monitor * list Event) :
  tick h env self r ->
  result_of r = inr tt /\
  last_status (state_of r) = Some (status h) /\
  consecutive_failures (state_of r) =
    snd (alert_decider (status h) (last_status self)
           (consecutive_failures self)) /\
  forall severity,
    severity <> DAILY_SUCCESS ->
    (emitted severity (events_of r) = true <->
     fst (alert_decider (status h) (last_status self)
            (consecutive_failures self)) = Some severity).
Proof.
  intros [|].
  - destruct (monitoring_iteration_run h env self)
      as (s' & out & pre & E & H1 & H2 & H3 & Hpre).
    rewrite E.
    monad_cbn. repeat (split; [assumption || reflexivity|]).
    intros severity Hne. rewrite emitted_severities, H3, in_app_iff.
    destruct (fst (alert_decider _ _ _)) as [a|];
      destruct Hpre as [-> | ->]; cbn [option_list app In];
      intuition (subst; try congruence; auto).
  - destruct (baseline_iteration_run h env self)
      as (s' & out & E & H1 & H2 & H3).
    rewrite E.
    monad_cbn. repeat (split; [assumption || reflexivity|]).
    intros severity Hne. rewrite emitted_severities, H3.
    destruct (fst (alert_decider _ _ _)) as [a|]; cbn [option_list In];
      intuition (subst; try congruence; auto).
Qed.

Lemma status_is_spec (p : option Status) (v : Status) :
  status_is p v = true <-> p = Some v.
Proof.
  destruct p as [s|]; cbn; [|split; discriminate].
  destruct (Status_eqb_spec s v); split; congruence.
Qed.

Lemma error_rule_spec (n : Z) :
  (n =? 1) || (n mod 5 =? 0) = true <-> n = 1 \/ (5 | n).
Proof.
  rewrite orb_true_iff, !Z.eqb_eq, Z.mod_divide by lia. reflexivity.
Qed.

(** C1: a tick classified as an error does not raise, adds 1 to the failure
    count, and posts an ERROR notification exactly when the new count is 1 or
    a multiple of 5; none is posted for 2, 3, 4, 6, 7, 8, 9. *)
Theorem error_alert_rule (h : HealthStatus) (env : Env) (self : Monitor)
    (r : (Py.Exn + unit) * Monitor * list Event) :
  status h = error ->
  tick h env self r ->
  result_of r = inr tt /\
  consecutive_failures (state_of r) = consecutive_failures self + 1 /\
  (emitted ERROR (events_of r) = true <->
   consecutive_failures (state_of r) = 1 \/
   (5 | consecutive_failures (state_of r))) /\
  (In (consecutive_failures (state_of r)) [2; 3; 4; 6; 7; 8; 9] ->
   emitted ERROR (events_of r) = false).
Proof.
  intros Hs Ht.
  destruct (iteration_summary h env self r Ht) as (Hr & _ & Hn & He).
  rewrite Hs in Hn, He. cbn [alert_decider fst snd] in Hn, He.
  specialize (He ERROR ltac:(discriminate)).
  pose proof (error_rule_spec (consecutive_failures self + 1)) as Hrule.
  rewrite Hn.
  assert (Hiff : emitted ERROR (events_of r) = true <->
                 consecutive_failures self + 1 = 1 \/
                 (5 | consecutive_failures self + 1)).
  { rewrite He, <- Hrule.
    destruct (_ || _); split; congruence. }
  repeat split; try assumption; try apply Hiff.
  intros Hin. apply not_true_iff_false. intros Hem.
  apply Hiff in Hem. cbn [In] in Hin.
  destruct Hem as [Hem|[k Hk]]; lia.
Qed.

Lemma error_alert_rule_witness :
  consecutive_failures
    (state_of
       (Monitoring.iteration_with
          (check_supabase_health (Failed Timeout))
          (mkEnv (mkDatetime (mkDate 2025 6 1) (mkTime 12 0 0 0))
                 (mkDatetime (mkDate 2025 6 1) (mkTime 12 0 0 0))
                 (mkDatetime (mkDate 2025 6 1) (mkTime 12 0 0 0))
                 (Failed Timeout)
                 (fun _ => EndpointResponded 200)
                 (fun _ _ => Delivered))
          (mkMonitor (Some error) 4 None zero_stats))) = 5 /\
  emitted ERROR
    (events_of
       (Monitoring.iteration_with
          (check_supabase_health (Failed Timeout))
          (mkEnv (mkDatetime (mkDate 2025 6 1) (mkTime 12 0 0 0))
                 (mkDatetime (mkDate 2025 6 1) (mkTime 12 0 0 0))
                 (mkDatetime (mkDate 2025 6 1) (mkTime 12 0 0 0))
                 (Failed Timeout)
                 (fun _ => EndpointResponded 200)
                 (fun _ _ => Delivered))
          (mkMonitor (Some error) 4 None zero_stats))) = true.
Proof.
  destruct (error_alert_rule
              (check_supabase_health (Failed Timeout))
              (mkEnv (mkDatetime (mkDate 2025 6 1) (mkTime 12 0 0 0))
                     (mkDatetime (mkDate 2025 6 1) (mkTime 12 0 0 0))
                     (mkDatetime (mkDate 2025 6 1) (mkTime 12 0 0 0))
                     (Failed Timeout)
                     (fun _ => EndpointResponded 200)
                     (fun _ _ => Delivered))
              (mkMonitor (Some error) 4 None zero_stats)
              _ eq_refl (tick_monitoring _ _ _))
    as (_ & Hn & Hiff & _).
  split; [exact Hn|].
  apply Hiff. right. rewrite Hn. exists 1. reflexivity.
Defined.

(** C3: a tick whose classification is not an error (a warning, healthy or
    unknown) does not raise and leaves the failure count at 0, whatever the
    count was. *)
Theorem failures_reset (h : HealthStatus) (env : Env) (self : Monitor)
    (r : (Py.Exn + unit) * Monitor * list Event) :
  status h <> error ->
  tick h env self r ->
  result_of r = inr tt /\ consecutive_failures (state_of r) = 0.
Proof.
  intros Hs Ht.
  destruct (iteration_summary h env self r Ht) as (Hr & _ & Hn & _).
  split; [exact Hr|]. rewrite Hn.
  destruct (status h); [reflexivity..|congruence].
Qed.

Lemma failures_reset_witness :
  consecutive_failures
    (state_of
       (Baseline.iteration_with
          (mkHealth unknown None None None)
          (mkEnv (mkDatetime (mkDate 2025 6 1) (mkTime 12 0 0 0))
                 (mkDatetime (mkDate 2025 6 1) (mkTime 12 0 0 0))
                 (mkDatetime (mkDate 2025 6 1) (mkTime 12 0 0 0))
                 (Failed Timeout)
                 (fun _ => EndpointResponded 200)
                 (fun _ _ => Delivered))
          (mkMonitor (Some error) 7 None zero_stats))) = 0.
Proof.
  apply (failures_reset
           (mkHealth unknown None None None)
           (mkEnv (mkDatetime (mkDate 2025 6 1) (mkTime 12 0 0 0))
                  (mkDatetime (mkDate 2025 6 1) (mkTime 12 0 0 0))
                  (mkDatetime (mkDate 2025 6 1) (mkTime 12 0 0 0))
                  (Failed Timeout)
                  (fun _ => EndpointResponded 200)
                  (fun _ _ => Delivered))
           (mkMonitor (Some error) 7 None zero_stats)
           _ ltac:(discriminate) (tick_baseline _ _ _)).
Defined.

(** C4: a tick posts an INFO (recovery) notification exactly when the stored
    classification is an error or a warning and the current one is healthy;
    none is posted from healthy to healthy; and after the tick the stored
    classification is the current one. *)
Theorem recovery_alert_rule (h : HealthStatus) (env : Env) (self : Monitor)
    (r : (Py.Exn + unit) * Monitor * list Event) :
  tick h env self r ->
  (emitted INFO (events_of r) = true <->
   (last_status self = Some error \/ last_status self = Some warning) /\
   status h = healthy) /\
  (last_status self = Some healthy -> emitted INFO (events_of r) = false) /\
  last_status (state_of r) = Some (status h).
Proof.
  intros Ht.
  destruct (iteration_summary h env self r Ht) as (_ & Hl & _ & He).
  specialize (He INFO ltac:(discriminate)).
  assert (Hiff : emitted INFO (events_of r) = true <->
                 (last_status self = Some error \/
                  last_status self = Some warning) /\
                 status h = healthy).
  { rewrite He, <- !status_is_spec, <- orb_true_iff.
    destruct (status h); cbn [alert_decider fst];
      try (destruct (_ || _)); intuition congruence. }
  split; [exact Hiff|]. split; [|exact Hl].
  intros Hp. apply not_true_iff_false. intros Hem.
  apply Hiff in Hem. destruct Hem as [[H|H] _]; congruence.
Qed.

Lemma recovery_alert_rule_witness :
  emitted INFO
    (events_of
       (Monitoring.iteration_with
          (check_supabase_health (Responded 200 (1 # 4)))
          (mkEnv (mkDatetime (mkDate 2025 6 1) (mkTime 12 0 0 0))
                 (mkDatetime (mkDate 2025 6 1) (mkTime 12 0 0 0))
                 (mkDatetime (mkDate 2025 6 1) (mkTime 12 0 0 0))
                 (Responded 200 (1 # 4))
                 (fun _ => EndpointResponded 200)
                 (fun _ _ => PostRequestException "503"))
          (mkMonitor (Some error) 3 None zero_stats))) = true.
Proof.
  apply (recovery_alert_rule
           (check_supabase_health (Responded 200 (1 # 4)))
           (mkEnv (mkDatetime (mkDate 2025 6 1) (mkTime 12 0 0 0))
                  (mkDatetime (mkDate 2025 6 1) (mkTime 12 0 0 0))
                  (mkDatetime (mkDate 2025 6 1) (mkTime 12 0 0 0))
                  (Responded 200 (1 # 4))
                  (fun _ => EndpointResponded 200)
                  (fun _ _ => PostRequestException "503"))
           (mkMonitor (Some error) 3 None zero_stats)
           _ (tick_monitoring _ _ _)).
  split; [left; reflexivity|reflexivity].
Defined.

(** The failure count never goes below 0 on a run of the loop. *)
Lemma failures_nonneg (envs : list Env) (self : Monitor) :
  0 <= consecutive_failures self ->
  result_of (Monitoring.iterations envs self) = inr tt /\
  0 <= consecutive_failures (state_of (Monitoring.iterations envs self)).
Proof.
  revert self. induction envs as [|env rest IH]; intros self Hn.
  - split; [reflexivity|exact Hn].
  - cbn [Monitoring.iterations]. unfold Monitoring.iteration.
    destruct (monitoring_iteration_run
                (check_supabase_health (primary env)) env self)
      as (s' & out & pre & E & _ & Hc & _).
    assert (Hn' : 0 <= consecutive_failures s').
    { rewrite Hc. destruct (status _); cbn [alert_decider snd]; lia. }
    destruct (IH s' Hn') as (Hr & Hs).
    unfold bind. rewrite E.
    destruct (Monitoring.iterations rest s') as [[r s] o].
    exact (conj Hr Hs).
Qed.

(** ** Scenarios *)

Section Scenarios.

Let noon : datetime := mkDatetime (mkDate 2025 6 1) (mkTime 12 0 0 0).

Let env_of (get : GetOutcome) : Env :=
  mkEnv noon noon noon get (fun _ => EndpointResponded 200)
        (fun _ _ => Delivered).

Let down : Env := env_of (Failed ConnectionError).
Let up : Env := env_of (Responded 200 (1 # 4)).

(** Five failing ticks: alerts on the first and the fifth only. *)
Example five_errors :
  let r := Baseline.iterations [down; down; down; down; down] init in
  severities (events_of r) = [ERROR; ERROR] /\
  map (fun p => match snd p with ApiDown _ _ n _ => n | _ => 0 end)
      (posts (events_of r)) = [1; 5] /\
  consecutive_failures (state_of r) = 5.
Proof. vm_compute. repeat split. Qed.

(** Healthy, error, healthy: an ERROR alert, then a recovery. *)
Example fail_and_recover :
  let r := Baseline.iterations [up; down; up] init in
  severities (events_of r) = [ERROR; INFO] /\
  consecutive_failures (state_of r) = 0 /\
  last_status (state_of r) = Some healthy.
Proof. vm_compute. repeat split. Qed.

(** The first healthy tick after 09:00 sends the report of the day before
    the probe of the next tick is recorded. *)
Example report_once_a_day :
  let r := Monitoring.iterations [up; up; up] init in
  severities (events_of r) = [DAILY_SUCCESS] /\
  last_daily_report_date (state_of r) = Some (mkDate 2025 6 1) /\
  checks_today (daily_stats (state_of r)) = 2.
Proof. vm_compute. repeat split. Qed.

End Scenarios.

(** * Further properties of the code *)

(** ** The phases of a tick, explicitly *)

Lemma alert_block_posts (env : Env) (h : HealthStatus)
    (eps : list (string * EndpointStatus)) (self : Monitor) :
  exists out,
    alert_block env h eps self =
      (inr tt,
       mkMonitor (Some (status h))
         (snd (alert_decider (status h) (last_status self)
                 (consecutive_failures self)))
         (last_daily_report_date self) (daily_stats self),
       out) /\
    posts out = option_list (alert_message h eps self).
Proof.
  destruct self as [ls cf ldr d]. destruct h as [s rt em sc].
  unfold alert_block, alert_message, alert_decider. monad_cbn.
  destruct s; monad_cbn.
  - monad_unfold. monad_cbn. rewrite andb_false_r.
    eexists; split; reflexivity.
  - monad_unfold. monad_cbn. rewrite andb_true_r.
    destruct (status_is ls error || status_is ls warning).
    + destruct (telegram env INFO _); eexists; split; reflexivity.
    + eexists; split; reflexivity.
  - monad_unfold. monad_cbn.
    destruct (telegram env WARNING _); eexists; split; reflexivity.
  - monad_unfold. monad_cbn.
    destruct ((cf + 1 =? 1) || ((cf + 1) mod 5 =? 0)).
    + destruct (telegram env ERROR _); eexists; split; reflexivity.
    + eexists; split; reflexivity.
Qed.

Lemma send_daily_success_report_message (env : Env) (self : Monitor) :
  exists out up,
    uptime_percentage (daily_stats self) = inr up /\
    send_daily_success_report env self =
      (inr tt,
       mkMonitor (last_status self) (consecutive_failures self)
                 (Some (date_of (clock_sent env))) zero_stats,
       out) /\
    posts out =
      [(DAILY_SUCCESS,
        DailyReport (date_of (clock_report env))
          (status_is (last_status self) healthy)
          (checks_today (daily_stats self)) up
          (errors_today (daily_stats self))
          (warnings_today (daily_stats self))
          (if_positive (total_downtime_minutes (daily_stats self)))
          (if_positive (average_response_time (daily_stats self))))].
Proof.
  destruct self as [ls cf ldr d].
  unfold send_daily_success_report.
  unfold bind at 1, get at 1. cbn beta iota. monad_cbn.
  unfold uptime_percentage.
  rewrite truediv_ok by apply max_one_nonzero.
  unfold bind at 1, lift at 1. cbn beta iota. monad_cbn.
  set (message := DailyReport _ _ _ _ _ _ _ _).
  destruct (send_telegram_alert_run (telegram env DAILY_SUCCESS message)
              message DAILY_SUCCESS (mkMonitor ls cf ldr d)) as (out & E & P).
  eexists (out ++ [])%list, _. split; [reflexivity|]. split.
  - unfold notify. unfold bind at 1. rewrite E.
    monad_unfold. monad_cbn. rewrite !app_nil_r. reflexivity.
  - now rewrite app_nil_r.
Qed.

Lemma should_send_daily_report_explicit (now : datetime) (self : Monitor) :
  should_send_daily_report now self =
  (inr (date_ne (last_daily_report_date self) (date_of now)
        && time_ge (time_of now) DAILY_REPORT_TIME),
   self, []).
Proof.
  unfold should_send_daily_report. monad_unfold.
  destruct (_ && _); reflexivity.
Qed.

(** One tick of the reporting monitor, phase by phase: the report (if sent)
    resets the statistics and stores the date; the probe's outcome is then
    recorded; the alert block decides on the state the tick started with. *)
Lemma monitoring_tick_explicit (h : HealthStatus) (env : Env)
    (self : Monitor) :
  let ldr' := if reports env self then Some (date_of (clock_sent env))
              else last_daily_report_date self in
  let d0 := if reports env self then zero_stats else daily_stats self in
  let eps := check_specific_endpoints (endpoint env) in
  exists d' out up,
    update_daily_stats h
      (mkMonitor (last_status self) (consecutive_failures self) ldr' d0) =
      (inr tt,
       mkMonitor (last_status self) (consecutive_failures self) ldr' d', []) /\
    uptime_percentage (daily_stats self) = inr up /\
    Monitoring.iteration_with h env self =
      (inr tt,
       mkMonitor (Some (status h))
         (snd (alert_decider (status h) (last_status self)
                 (consecutive_failures self)))
         ldr' d',
       out) /\
    posts out =
      ((if reports env self then
          [(DAILY_SUCCESS,
            DailyReport (date_of (clock_report env)) true
              (checks_today (daily_stats self)) up
              (errors_today (daily_stats self))
              (warnings_today (daily_stats self))
              (if_positive (total_downtime_minutes (daily_stats self)))
              (if_positive (average_response_time (daily_stats self))))]
        else [])
       ++ option_list (alert_message h eps self))%list.
Proof.
  intros ldr' d0 eps.
  destruct (send_daily_success_report_message env self)
    as (o1 & up & Hup & E1 & P1).
  set (s1 := mkMonitor (last_status self) (consecutive_failures self) ldr' d0).
  destruct (update_daily_stats_run h s1) as (d' & E2 & _).
  cbn [last_status consecutive_failures last_daily_report_date s1] in E2.
  set (s2 := mkMonitor _ _ _ d') in E2.
  destruct (alert_block_posts env h eps s2) as (o3 & E3 & P3).
  cbn [last_status consecutive_failures last_daily_report_date daily_stats s2]
    in E3.
  set (s3 := mkMonitor _ _ _ _) in E3.
  destruct (log_and_sleep_run h s3) as (o4 & E4 & P4).
  exists d',
    ([] ++ [] ++ (if reports env self then o1 else []) ++ [] ++ o3 ++ o4)%list,
    up.
  split; [exact E2|]. split; [exact Hup|]. split.
  - unfold Monitoring.iteration_with. apply try_except_ok.
    unfold Monitoring.body_with.
    eapply bind_run; [apply should_send_daily_report_explicit|].
    eapply bind_run; [reflexivity|].
    eapply bind_run with (s1 := s1).
    { fold (reports env self). unfold when, s1, ldr', d0.
      destruct (reports env self) eqn:R; [exact E1|].
      destruct self; reflexivity. }
    eapply bind_run; [exact E2|].
    eapply bind_run; [exact E3|exact E4].
  - cbn [app]. rewrite !posts_app.
    unfold severities in P4. apply map_eq_nil in P4. rewrite P4, P3, app_nil_r.
    f_equal. destruct (reports env self) eqn:R; [|reflexivity].
    rewrite P1. unfold reports in R.
    apply andb_true_iff in R. destruct R as [_ ->]. reflexivity.
Qed.

Lemma baseline_tick_explicit (h : HealthStatus) (env : Env) (self : Monitor) :
  exists out,
    Baseline.iteration_with h env self =
      (inr tt,
       mkMonitor (Some (status h))
         (snd (alert_decider (status h) (last_status self)
                 (consecutive_failures self)))
         (last_daily_report_date self) (daily_stats self),
       out) /\
    posts out =
      option_list
        (alert_message h (check_specific_endpoints (endpoint env)) self).
Proof.
  destruct (alert_block_posts env h (check_specific_endpoints (endpoint env))
              self) as (o3 & E3 & P3).
  set (s3 := mkMonitor _ _ _ _) in E3.
  destruct (log_and_sleep_run h s3) as (o4 & E4 & P4).
  exists (o3 ++ o4)%list. split.
  - unfold Baseline.iteration_with. apply try_except_ok.
    unfold Baseline.body_with.
    eapply bind_run; [exact E3|exact E4].
  - unfold severities in P4. apply map_eq_nil in P4.
    now rewrite posts_app, P4, P3, app_nil_r.
Qed.

(** The notifications of a tick on either monitor: the daily report, if any,
    then the alert of the decision table, if any. *)
Lemma tick_posts (h : HealthStatus) (env : Env) (self : Monitor)
    (r : (Py.Exn + unit) * Monitor * list Event) :
  tick h env self r ->
  exists pre,
    result_of r = inr tt /\
    posts (events_of r) =
      (pre ++ option_list
                (alert_message h (check_specific_endpoints (endpoint env))
                   self))%list /\
    (pre = [] \/ exists m, pre = [(DAILY_SUCCESS, m)]).
Proof.
  intros [|].
  - destruct (monitoring_tick_explicit h env self)
      as (d' & out & up & _ & _ & E & P).
    rewrite E. monad_cbn. eexists. split; [reflexivity|].
    split; [exact P|].
    destruct (reports env self); [right; eexists; reflexivity|now left].
  - destruct (baseline_tick_explicit h env self) as (out & E & P).
    rewrite E. monad_cbn. exists []. split; [reflexivity|].
    split; [exact P|now left].
Qed.

Lemma alert_message_severity (h : HealthStatus)
    (eps : list (string * EndpointStatus)) (self : Monitor)
    (severity : Severity) (m : Message) :
  alert_message h eps self = Some (severity, m) ->
  severity <> DAILY_SUCCESS /\
  fst (alert_decider (status h) (last_status self)
         (consecutive_failures self)) = Some severity.
Proof.
  unfold alert_message.
  destruct (fst (alert_decider _ _ _)) as [[| | |]|];
    intros [= <- <-] || discriminate; split; congruence.
Qed.

(** X1: what each alert says.  An ERROR alert of a tick carries the probe's
    message and status code, the failure count including this tick, and the
    names of the auxiliary endpoints that failed; a WARNING alert carries the
    probe's message, code and latency; a recovery alert carries the latency
    and the failure count from before it is reset. *)
Theorem alert_contents (h : HealthStatus) (env : Env) (self : Monitor)
    (r : (Py.Exn + unit) * Monitor * list Event) (m : Message) :
  tick h env self r ->
  (In (ERROR, m) (posts (events_of r)) ->
   m = ApiDown (error_message h) (status_code h)
         (consecutive_failures self + 1)
         (failed_endpoints (check_specific_endpoints (endpoint env)))) /\
  (In (WARNING, m) (posts (events_of r)) ->
   m = ApiWarning (error_message h) (status_code h) (response_time h)) /\
  (In (INFO, m) (posts (events_of r)) ->
   m = ApiBackOnline (response_time h) (consecutive_failures self)).
Proof.
  intros Ht. destruct (tick_posts h env self r Ht) as (pre & _ & P & Hpre).
  rewrite P.
  assert (Hin : forall severity,
             severity <> DAILY_SUCCESS ->
             In (severity, m)
                (pre ++ option_list
                   (alert_message h
                      (check_specific_endpoints (endpoint env)) self)) ->
             alert_message h (check_specific_endpoints (endpoint env)) self
             = Some (severity, m)).
  { intros severity Hne Hin. apply in_app_or in Hin.
    destruct Hin as [Hin|Hin].
    - destruct Hpre as [->|[m' ->]]; [destruct Hin|].
      destruct Hin as [Hin|[]]. congruence.
    - destruct (alert_message _ _ _) as [p|]; [|destruct Hin].
      destruct Hin as [->|[]]. reflexivity. }
  repeat split; intros H; apply Hin in H; try discriminate;
    unfold alert_message in H;
    destruct (fst (alert_decider _ _ _)) as [[| | |]|];
    congruence.
Qed.

Lemma alert_contents_witness :
  In (INFO, ApiBackOnline (Some (25000 # 100)%Q) 3)
     (posts
        (events_of
           (Baseline.iteration_with
              (check_supabase_health (Responded 200 (1 # 4)))
              (sample_env (Responded 200 (1 # 4)))
              (mkMonitor (Some error) 3 None zero_stats)))) /\
  ApiBackOnline (Some (25000 # 100)%Q) 3 =
  ApiBackOnline
    (response_time (check_supabase_health (Responded 200 (1 # 4)))) 3.
Proof.
  split; [vm_compute; left; reflexivity|].
  apply (alert_contents
           (check_supabase_health (Responded 200 (1 # 4)))
           (sample_env (Responded 200 (1 # 4)))
           (mkMonitor (Some error) 3 None zero_stats)
           _ _ (tick_baseline _ _ _)).
  vm_compute. left. reflexivity.
Defined.

Lemma count_severity_posts (severity : Severity) (out : list Event)
    (l : list (Severity * Message)) :
  posts out = l ->
  count_severity severity out =
  Z.of_nat
    (List.length (filter (fun s => Severity_eqb s severity) (map fst l))).
Proof. intros <-. reflexivity. Qed.

Lemma count_severity_app (severity : Severity) (a b : list Event) :
  count_severity severity (a ++ b) =
  count_severity severity a + count_severity severity b.
Proof.
  unfold count_severity.
  rewrite severities_app, filter_app, length_app. lia.
Qed.

(** X2: at most one alert per tick, next to at most one daily report; and a
    WARNING alert is sent on every tick classified as a warning, whatever
    came before, and on no other tick. *)
Theorem one_alert_per_tick (h : HealthStatus) (env : Env) (self : Monitor)
    (r : (Py.Exn + unit) * Monitor * list Event) :
  tick h env self r ->
  count_severity ERROR (events_of r) + count_severity WARNING (events_of r)
  + count_severity INFO (events_of r) <= 1 /\
  count_severity DAILY_SUCCESS (events_of r) <= 1 /\
  count_severity WARNING (events_of r) =
    (if Status_eqb (status h) warning then 1 else 0).
Proof.
  intros Ht. destruct (tick_posts h env self r Ht) as (pre & _ & P & Hpre).
  rewrite !(count_severity_posts _ _ _ P).
  assert (Hw : fst (alert_decider (status h) (last_status self)
                      (consecutive_failures self)) = Some WARNING <->
               status h = warning).
  { destruct (status h); cbn [alert_decider fst];
      try (destruct (_ || _)); split; congruence. }
  destruct (alert_message h (check_specific_endpoints (endpoint env)) self)
    as [[severity m]|] eqn:A.
  - apply alert_message_severity in A. destruct A as [Hne Hd].
    rewrite Hd in Hw.
    destruct Hpre as [->|[m' ->]];
      destruct severity; try congruence;
      destruct (Status_eqb_spec (status h) warning) as [Hs|Hs];
      cbn; try lia;
      try (exfalso; apply Hs, Hw; reflexivity);
      try (apply Hw in Hs; discriminate).
  - assert (Hs : status h <> warning).
    { intros Hs. unfold alert_message in A.
      apply Hw in Hs. rewrite Hs in A. discriminate. }
    destruct (Status_eqb_spec (status h) warning); [contradiction|].
    destruct Hpre as [->|[m' ->]]; cbn; lia.
Qed.

Lemma one_alert_per_tick_witness :
  count_severity WARNING
    (events_of
       (Monitoring.iteration_with
          (check_supabase_health (Responded 404 (1 # 4)))
          (sample_env (Responded 404 (1 # 4)))
          (mkMonitor (Some warning) 0 None zero_stats))) = 1.
Proof.
  apply (one_alert_per_tick
           (check_supabase_health (Responded 404 (1 # 4)))
           (sample_env (Responded 404 (1 # 4)))
           (mkMonitor (Some warning) 0 None zero_stats)
           _ (tick_monitoring _ _ _)).
Defined.

(** ** The daily report inside a tick *)

Lemma reports_spec (env : Env) (self : Monitor) :
  valid_time (time_of (clock_due env)) ->
  reports env self = true <->
  last_daily_report_date self <> Some (date_of (clock_due env)) /\
  micros_of_time DAILY_REPORT_TIME <= micros_of_time (time_of (clock_due env)) /\
  last_status self = Some healthy.
Proof.
  intros Hv. unfold reports.
  rewrite !andb_true_iff, date_ne_spec, (time_ge_report_time _ Hv),
    status_is_spec.
  change (micros_of_time DAILY_REPORT_TIME) with 32400000000. tauto.
Qed.

Lemma monitoring_report_emitted (h : HealthStatus) (env : Env)
    (self : Monitor) :
  emitted DAILY_SUCCESS (events_of (Monitoring.iteration_with h env self))
  = reports env self.
Proof.
  destruct (monitoring_tick_explicit h env self)
    as (d' & out & up & _ & _ & E & P).
  rewrite E. monad_cbn. unfold emitted. rewrite P.
  destruct (alert_message h (check_specific_endpoints (endpoint env)) self)
    as [[severity m]|] eqn:A.
  - apply alert_message_severity in A. destruct A as [Hne _].
    destruct (reports env self); destruct severity; cbn; congruence.
  - destruct (reports env self); reflexivity.
Qed.

(** X3: a tick of the reporting monitor sends the daily report exactly when
    the stored report date is not the date read, the time read is 09:00:00
    or later, and the classification stored by the previous tick is healthy:
    a due report waits while the monitor is not healthy, none is sent at any
    hour below 9, and none is sent on the first tick.  The baseline monitor
    never sends one. *)
Theorem daily_report_gate (h : HealthStatus) (env : Env) (self : Monitor) :
  valid_time (time_of (clock_due env)) ->
  (emitted DAILY_SUCCESS (events_of (Monitoring.iteration_with h env self))
   = true <->
   last_daily_report_date self <> Some (date_of (clock_due env)) /\
   micros_of_time (mkTime 9 0 0 0)
   <= micros_of_time (time_of (clock_due env)) /\
   last_status self = Some healthy) /\
  (hour (time_of (clock_due env)) < 9 ->
   emitted DAILY_SUCCESS (events_of (Monitoring.iteration_with h env self))
   = false) /\
  emitted DAILY_SUCCESS (events_of (Monitoring.iteration_with h env init))
  = false /\
  emitted DAILY_SUCCESS (events_of (Baseline.iteration_with h env self))
  = false.
Proof.
  intros Hv. rewrite !monitoring_report_emitted.
  pose proof (reports_spec env self Hv) as Hspec.
  change (micros_of_time DAILY_REPORT_TIME) with 32400000000 in Hspec.
  change (micros_of_time (mkTime 9 0 0 0)) with 32400000000.
  split; [exact Hspec|]. split; [|split].
  - intros Hh. apply not_true_iff_false. intros R.
    apply Hspec in R. destruct R as (_ & Hm & _).
    unfold valid_time in Hv. unfold micros_of_time in Hm. lia.
  - unfold reports. cbn. now rewrite andb_false_r.
  - destruct (baseline_tick_explicit h env self) as (out & E & P).
    rewrite E. monad_cbn. unfold emitted. rewrite P.
    destruct (alert_message h (check_specific_endpoints (endpoint env)) self)
      as [[severity m]|] eqn:A; [|reflexivity].
    apply alert_message_severity in A. destruct A as [Hne _].
    destruct severity; cbn; congruence.
Qed.

Lemma daily_report_gate_witness :
  emitted DAILY_SUCCESS
    (events_of
       (Monitoring.iteration_with
          (check_supabase_health (Failed Timeout))
          (mkEnv (mkDatetime (mkDate 2025 6 1) (mkTime 9 0 0 0))
                 sample_clock sample_clock (Failed Timeout)
                 (fun _ => EndpointResponded 200) (fun _ _ => Delivered))
          (mkMonitor (Some healthy) 0 (Some (mkDate 2025 5 31)) zero_stats)))
  = true /\
  emitted DAILY_SUCCESS
    (events_of
       (Monitoring.iteration_with
          (check_supabase_health (Failed Timeout))
          (mkEnv (mkDatetime (mkDate 2025 6 1) (mkTime 8 59 59 999999))
                 sample_clock sample_clock (Failed Timeout)
                 (fun _ => EndpointResponded 200) (fun _ _ => Delivered))
          (mkMonitor (Some healthy) 0 (Some (mkDate 2025 5 31)) zero_stats)))
  = false.
Proof.
  split.
  - destruct (daily_report_gate
                (check_supabase_health (Failed Timeout))
                (mkEnv (mkDatetime (mkDate 2025 6 1) (mkTime 9 0 0 0))
                       sample_clock sample_clock (Failed Timeout)
                       (fun _ => EndpointResponded 200)
                       (fun _ _ => Delivered))
                (mkMonitor (Some healthy) 0 (Some (mkDate 2025 5 31))
                   zero_stats))
      as (Hiff & _).
    + unfold valid_time; cbn; lia.
    + apply Hiff. split; [discriminate|]. split; [cbn; lia|reflexivity].
  - destruct (daily_report_gate
                (check_supabase_health (Failed Timeout))
                (mkEnv (mkDatetime (mkDate 2025 6 1) (mkTime 8 59 59 999999))
                       sample_clock sample_clock (Failed Timeout)
                       (fun _ => EndpointResponded 200)
                       (fun _ _ => Delivered))
                (mkMonitor (Some healthy) 0 (Some (mkDate 2025 5 31))
                   zero_stats))
      as (_ & Hbefore & _).
    + unfold valid_time; cbn; lia.
    + apply Hbefore. cbn; lia.
Defined.

(** X4: the report date and the statistics after a tick of the reporting
    monitor.  When the tick sent the report, the stored date is the date read
    after the dispatch and the statistics hold this tick's outcome alone
    (one check); otherwise the date is unchanged and the outcome is recorded
    on top of the statistics so far. *)
Theorem report_tick_state (h : HealthStatus) (env : Env) (self : Monitor) :
  let r := Monitoring.iteration_with h env self in
  let sent := emitted DAILY_SUCCESS (events_of r) in
  last_daily_report_date (state_of r) =
    (if sent then Some (date_of (clock_sent env))
     else last_daily_report_date self) /\
  daily_stats (state_of r) =
    daily_stats
      (state_of
         (update_daily_stats h
            (mkMonitor (last_status self) (consecutive_failures self)
               (last_daily_report_date self)
               (if sent then zero_stats else daily_stats self)))) /\
  checks_today (daily_stats (state_of r)) =
    (if sent then 1 else checks_today (daily_stats self) + 1).
Proof.
  cbv zeta. rewrite monitoring_report_emitted.
  destruct (monitoring_tick_explicit h env self)
    as (d' & out & up & E2 & _ & E & _).
  rewrite E. monad_cbn.
  split; [reflexivity|].
  set (d0 := if reports env self then zero_stats else daily_stats self) in *.
  destruct (update_daily_stats_run h
              (mkMonitor (last_status self) (consecutive_failures self)
                 (last_daily_report_date self) d0))
    as (d'' & E2' & Hc'' & _).
  destruct (update_daily_stats_run h
              (mkMonitor (last_status self) (consecutive_failures self)
                 (if reports env self then Some (date_of (clock_sent env))
                  else last_daily_report_date self) d0))
    as (d3 & E3 & Hc & He & Hw & Hd & Hs).
  rewrite E2 in E3. injection E3 as <-.
  rewrite E2'. monad_cbn.
  assert (Hsame : d' = d'').
  { clear - E2 E2'. revert E2 E2'.
    generalize (if reports env self then Some (date_of (clock_sent env))
                else last_daily_report_date self).
    generalize (last_daily_report_date self).
    generalize (last_status self) (consecutive_failures self).
    intros ls cf ldr ldr'.
    destruct d0 as [c e w dt avg rts].
    destruct h as [s [t|] em sc]; destruct s;
      unfold update_daily_stats; monad_unfold; monad_cbn;
      try (destruct (Qeq_bool t 0) eqn:Ht; monad_cbn);
      rewrite ?truediv_ok by (apply len_nonzero || reflexivity); monad_cbn;
      intros [= <-] [= <-]; reflexivity. }
  split; [exact Hsame|].
  rewrite Hc. monad_cbn. unfold d0.
  destruct (reports env self); reflexivity.
Qed.

Lemma if_positive_spec (x : Q) :
  ((0 < x)%Q -> if_positive x = Some x) /\
  ((x <= 0)%Q -> if_positive x = None).
Proof.
  unfold if_positive. destruct (Qle_bool x 0) eqn:E.
  - apply Qle_bool_iff in E. split; [|reflexivity].
    intros H. exfalso. apply (Qlt_not_le _ _ H E).
  - split; [reflexivity|]. intros H.
    apply Qle_bool_iff in H. congruence.
Qed.

(** X5: the daily report a tick sends always states the overall status as
    healthy, and its figures are those of the statistics before the reset:
    the checks, errors and warnings, the uptime
    [100 - errors / max(checks, 1) * 100] computed from them, the downtime
    exactly when it is above 0, and the average response time exactly when
    it is above 0. *)
Theorem report_contents (h : HealthStatus) (env : Env) (self : Monitor)
    (m : Message) :
  In (DAILY_SUCCESS, m)
     (posts (events_of (Monitoring.iteration_with h env self))) ->
  exists (up : Q) (downtime average : option Q),
    m = DailyReport (date_of (clock_report env)) true
          (checks_today (daily_stats self)) up
          (errors_today (daily_stats self))
          (warnings_today (daily_stats self))
          downtime average /\
    (up == 100 - inject_Z (errors_today (daily_stats self))
                 / inject_Z (Z.max (checks_today (daily_stats self)) 1)
                 * 100)%Q /\
    ((0 < total_downtime_minutes (daily_stats self))%Q ->
     downtime = Some (total_downtime_minutes (daily_stats self))) /\
    ((total_downtime_minutes (daily_stats self) <= 0)%Q ->
     downtime = None) /\
    ((0 < average_response_time (daily_stats self))%Q ->
     average = Some (average_response_time (daily_stats self))) /\
    ((average_response_time (daily_stats self) <= 0)%Q ->
     average = None).
Proof.
  destruct (monitoring_tick_explicit h env self)
    as (d' & out & up & _ & Hup & E & P).
  rewrite E. monad_cbn. rewrite P. intros Hin.
  exists up, (if_positive (total_downtime_minutes (daily_stats self))),
         (if_positive (average_response_time (daily_stats self))).
  split; [|split].
  - apply in_app_or in Hin. destruct Hin as [Hin|Hin].
    + destruct (reports env self); [|destruct Hin].
      destruct Hin as [Hin|[]]. congruence.
    + destruct (alert_message _ _ _) as [[severity m']|] eqn:A;
        [|destruct Hin].
      apply alert_message_severity in A. destruct A as [Hne _].
      destruct Hin as [Hin|[]]. congruence.
  - unfold uptime_percentage in Hup.
    rewrite truediv_ok in Hup by apply max_one_nonzero.
    injection Hup as <-. reflexivity.
  - destruct (if_positive_spec (total_downtime_minutes (daily_stats self)))
      as [H1 H2].
    destruct (if_positive_spec (average_response_time (daily_stats self)))
      as [H3 H4].
    auto.
Qed.

Lemma report_contents_witness :
  exists (up : Q) (downtime average : option Q),
    DailyReport (mkDate 2025 6 1) true 100 (9500 # 100) 5 2 (Some 5%Q) None
    = DailyReport (mkDate 2025 6 1) true 100 up 5 2 downtime average /\
    (up == 100 - inject_Z 5 / inject_Z (Z.max 100 1) * 100)%Q /\
    ((0 < 5)%Q -> downtime = Some 5%Q) /\
    ((5 <= 0)%Q -> downtime = None) /\
    ((0 < 0)%Q -> average = Some 0%Q) /\
    ((0 <= 0)%Q -> average = None).
Proof.
  apply (report_contents
           (check_supabase_health (Responded 200 (1 # 4)))
           (sample_env (Responded 200 (1 # 4)))
           (mkMonitor (Some healthy) 0 None (mkStats 100 5 2 5 0 []))).
  vm_compute. left. reflexivity.
Defined.

(** X6: what a tick leaves in the monitor does not depend on whether
    notifications were delivered, nor on the auxiliary endpoints: with the
    same clock readings and the same probe outcome, any other answers of
    Telegram and of the auxiliary endpoints give the same state and the same
    sequence of notification severities. *)
Theorem state_ignores_delivery (h : HealthStatus) (env : Env)
    (self : Monitor) (report' : datetime) (primary' : GetOutcome)
    (endpoint' : string -> EndpointOutcome)
    (telegram' : Severity -> Message -> PostOutcome) :
  let env' := mkEnv (clock_due env) report' (clock_sent env) primary'
                    endpoint' telegram' in
  state_of (Monitoring.iteration_with h env' self)
  = state_of (Monitoring.iteration_with h env self) /\
  severities (events_of (Monitoring.iteration_with h env' self))
  = severities (events_of (Monitoring.iteration_with h env self)) /\
  state_of (Baseline.iteration_with h env' self)
  = state_of (Baseline.iteration_with h env self) /\
  severities (events_of (Baseline.iteration_with h env' self))
  = severities (events_of (Baseline.iteration_with h env self)).
Proof.
  intros env'.
  assert (Hsev : forall eps eps',
             map fst (option_list (alert_message h eps self)) =
             map fst (option_list (alert_message h eps' self))).
  { intros eps eps'. unfold alert_message.
    destruct (fst (alert_decider _ _ _)) as [[| | |]|]; reflexivity. }
  destruct (monitoring_tick_explicit h env self)
    as (d1 & o1 & up1 & U1 & _ & E1 & P1).
  destruct (monitoring_tick_explicit h env' self)
    as (d2 & o2 & up2 & U2 & _ & E2 & P2).
  destruct (baseline_tick_explicit h env self) as (o3 & E3 & P3).
  destruct (baseline_tick_explicit h env' self) as (o4 & E4 & P4).
  change (reports env' self) with (reports env self) in *.
  change (clock_sent env') with (clock_sent env) in *.
  rewrite U1 in U2. injection U2 as <-.
  rewrite E1, E2, E3, E4. monad_cbn. unfold severities.
  rewrite P1, P2, P3, P4, !map_app.
  repeat split.
  - f_equal; [|apply Hsev]. destruct (reports env self); reflexivity.
  - apply Hsev.
Qed.

(** ** The probe and the auxiliary endpoints *)

(** X7: the probe reports healthy exactly for a response with code 200; it
    carries an error message exactly when it is not healthy; a response
    always yields its status code and a latency, whereas a failed request
    yields neither and is an error. *)
Theorem probe_outcome_shape (get : GetOutcome) :
  let h := check_supabase_health get in
  (status h = healthy <-> exists elapsed, get = Responded 200 elapsed) /\
  (error_message h = None <-> status h = healthy) /\
  (forall code elapsed,
     get = Responded code elapsed ->
     status_code h = Some code /\
     response_time h = Some (Py.round2 (elapsed * 1000))) /\
  (forall e,
     get = Failed e ->
     status h = error /\ status_code h = None /\ response_time h = None).
Proof.
  cbv zeta. destruct get as [code elapsed|e].
  - assert (Hkeep : status_code (check_supabase_health (Responded code elapsed))
                    = Some code /\
                    response_time (check_supabase_health (Responded code elapsed))
                    = Some (Py.round2 (elapsed * 1000))).
    { unfold check_supabase_health, classify.
      repeat (destruct (_ =? _) || destruct (_ >=? _)); split; reflexivity. }
    pose proof (classify_sound code elapsed) as T.
    change (fst (probe_code code elapsed))
      with (status (check_supabase_health (Responded code elapsed))) in T.
    change (snd (probe_code code elapsed))
      with (error_message (check_supabase_health (Responded code elapsed)))
      in T.
    split; [|split; [|split]].
    + split.
      * intros Hs. exists elapsed. f_equal.
        rewrite Hs in T. inversion T. assumption.
      * intros [el [= -> ->]]. reflexivity.
    + destruct T; split; intros; congruence || discriminate.
    + intros c el [= <- <-]. exact Hkeep.
    + discriminate.
  - split; [|split; [|split]].
    + split; [destruct e; discriminate|intros [el H]; discriminate].
    + destruct e; split; discriminate.
    + discriminate.
    + intros e' [= <-]. destruct e; repeat split.
Qed.

Lemma check_endpoint_status (o : EndpointOutcome) :
  (ep_status (check_endpoint o) = healthy <-> o = EndpointResponded 200) /\
  (ep_status (check_endpoint o) = error <-> o <> EndpointResponded 200) /\
  (ep_error (check_endpoint o) = None <-> o = EndpointResponded 200).
Proof.
  destruct o as [code|e]; cbn.
  - destruct (Z.eqb_spec code 200) as [->|Hne];
      repeat split; try congruence; try discriminate.
  - repeat split; try congruence; try discriminate.
Qed.

Lemma failed_endpoints_in (get : string -> EndpointOutcome)
    (names : list string) (name : string) :
  In name
     (failed_endpoints (map (fun n => (n, check_endpoint (get n))) names)) <->
  In name names /\ get name <> EndpointResponded 200.
Proof.
  unfold failed_endpoints. rewrite in_map_iff. split.
  - intros ([n st] & <- & Hin). apply filter_In in Hin.
    destruct Hin as [Hin Hst]. apply in_map_iff in Hin.
    destruct Hin as (n' & [= <- <-] & Hn). cbn in *.
    split; [exact Hn|]. apply check_endpoint_status.
    destruct (Status_eqb_spec (ep_status (check_endpoint (get n'))) error);
      [assumption|discriminate].
  - intros [Hin Hne]. exists (name, check_endpoint (get name)).
    split; [reflexivity|]. apply filter_In. split.
    + apply in_map_iff. exists name. auto.
    + cbn. apply check_endpoint_status in Hne. rewrite Hne. reflexivity.
Qed.

(** X8: the sweep of the auxiliary endpoints answers for Auth, Realtime and
    Storage, in that order, whatever the requests do; an endpoint is healthy
    exactly when it responded 200, carries an error text exactly otherwise;
    and the names listed in an alert as failed are exactly the endpoints that
    did not respond 200. *)
Theorem endpoint_sweep (get : string -> EndpointOutcome) :
  map fst (check_specific_endpoints get) = ["Auth"; "Realtime"; "Storage"] /\
  (forall name st,
     In (name, st) (check_specific_endpoints get) ->
     (ep_status st = healthy <-> get name = EndpointResponded 200) /\
     (ep_status st = error <-> get name <> EndpointResponded 200) /\
     (ep_error st = None <-> get name = EndpointResponded 200)) /\
  (forall name,
     In name (failed_endpoints (check_specific_endpoints get)) <->
     In name ["Auth"; "Realtime"; "Storage"] /\
     get name <> EndpointResponded 200).
Proof.
  split; [reflexivity|]. split.
  - intros name st Hin. unfold check_specific_endpoints in Hin.
    apply in_map_iff in Hin. destruct Hin as (n & [= <- <-] & _).
    apply check_endpoint_status.
  - intros name. apply failed_endpoints_in.
Qed.

(** ** Runs of the loop *)

Lemma bind_parts {A B : Type} (m : M A) (k : A -> M B) (self : Monitor)
    (a : A) :
  result_of (m self) = inr a ->
  result_of (bind m k self) = result_of (k a (state_of (m self))) /\
  state_of (bind m k self) = state_of (k a (state_of (m self))) /\
  events_of (bind m k self) =
    (events_of (m self) ++ events_of (k a (state_of (m self))))%list.
Proof.
  unfold bind, result_of, state_of, events_of.
  destruct (m self) as [[r s1] o1]. cbn. intros ->.
  destruct (k a s1) as [[r2 s2] o2]. cbn. auto.
Qed.

Lemma tick_alert_count (h : HealthStatus) (env : Env) (self : Monitor)
    (r : (Py.Exn + unit) * Monitor * list Event) (severity : Severity) :
  tick h env self r ->
  severity <> DAILY_SUCCESS ->
  count_severity severity (events_of r) =
  match fst (alert_decider (status h) (last_status self)
               (consecutive_failures self)) with
  | Some s => if Severity_eqb s severity then 1 else 0
  | None => 0
  end.
Proof.
  intros Ht Hne. destruct (tick_posts h env self r Ht) as (pre & _ & P & Hpre).
  rewrite (count_severity_posts _ _ _ P), map_app, filter_app, length_app.
  assert (Hpre0 : List.length
                    (filter (fun s => Severity_eqb s severity) (map fst pre))
                  = 0%nat).
  { destruct Hpre as [->|[m ->]]; [reflexivity|].
    destruct severity; cbn; congruence. }
  rewrite Hpre0. cbn [Nat.add].
  destruct (alert_message h (check_specific_endpoints (endpoint env)) self)
    as [[s m]|] eqn:A.
  - apply alert_message_severity in A. destruct A as [_ ->].
    cbn. destruct (Severity_eqb s severity); reflexivity.
  - unfold alert_message in A.
    destruct (fst (alert_decider _ _ _)) as [[| | |]|];
      try discriminate; try reflexivity.
    destruct severity; cbn; congruence.
Qed.

Lemma last_cons_default {A : Type} (x : A) (l : list A) (d : A) :
  last (x :: l) d = last l x.
Proof.
  revert x d. induction l as [|y l IH]; intros x d; [reflexivity|].
  change (last (x :: y :: l) d) with (last (y :: l) d).
  now rewrite !IH.
Qed.

Section Runs.

Variable iteration : Env -> M unit.
Variable iterations : list Env -> M unit.

Hypothesis iterations_nil : forall s, iterations [] s = (inr tt, s, []).
Hypothesis iterations_cons :
  forall env rest s,
    iterations (env :: rest) s
    = bind (iteration env) (fun _ => iterations rest) s.
Hypothesis iteration_tick :
  forall env s,
    tick (check_supabase_health (primary env)) env s (iteration env s).

Lemma iteration_ok (env : Env) (s : Monitor) :
  result_of (iteration env s) = inr tt.
Proof.
  destruct (tick_posts _ _ _ _ (iteration_tick env s)) as (pre & H & _).
  exact H.
Qed.

Lemma run_cons (env : Env) (rest : list Env) (s : Monitor) :
  result_of (iterations (env :: rest) s)
  = result_of (iterations rest (state_of (iteration env s))) /\
  state_of (iterations (env :: rest) s)
  = state_of (iterations rest (state_of (iteration env s))) /\
  events_of (iterations (env :: rest) s)
  = (events_of (iteration env s)
     ++ events_of (iterations rest (state_of (iteration env s))))%list.
Proof.
  rewrite iterations_cons.
  apply (bind_parts (iteration env) (fun _ => iterations rest) s tt).
  apply iteration_ok.
Qed.

Lemma run_ok (envs : list Env) (s : Monitor) :
  result_of (iterations envs s) = inr tt.
Proof.
  revert s. induction envs as [|env rest IH]; intros s.
  - now rewrite iterations_nil.
  - destruct (run_cons env rest s) as (-> & _). apply IH.
Qed.

Lemma run_app (a b : list Env) (s : Monitor) :
  state_of (iterations (a ++ b) s)
  = state_of (iterations b (state_of (iterations a s))) /\
  events_of (iterations (a ++ b) s)
  = (events_of (iterations a s)
     ++ events_of (iterations b (state_of (iterations a s))))%list.
Proof.
  revert s. induction a as [|env rest IH]; intros s.
  - rewrite iterations_nil. cbn. auto.
  - cbn [app].
    destruct (run_cons env (rest ++ b) s) as (_ & -> & ->).
    destruct (run_cons env rest s) as (_ & -> & ->).
    destruct (IH (state_of (iteration env s))) as (-> & ->).
    split; [reflexivity|]. now rewrite app_assoc.
Qed.

Lemma run_invariant (I : Monitor -> Prop) :
  (forall env s, I s -> I (state_of (iteration env s))) ->
  forall envs s, I s -> I (state_of (iterations envs s)).
Proof.
  intros Hstep envs. induction envs as [|env rest IH]; intros s Hs.
  - now rewrite iterations_nil.
  - destruct (run_cons env rest s) as (_ & -> & _). apply IH, Hstep, Hs.
Qed.

Lemma run_posts (P : Severity * Message -> Prop) :
  (forall env s, Forall P (posts (events_of (iteration env s)))) ->
  forall envs s, Forall P (posts (events_of (iterations envs s))).
Proof.
  intros Hstep envs. induction envs as [|env rest IH]; intros s.
  - rewrite iterations_nil. constructor.
  - destruct (run_cons env rest s) as (_ & _ & ->).
    rewrite posts_app. apply Forall_app. split; [apply Hstep|apply IH].
Qed.

Lemma iteration_alert_state (env : Env) (s : Monitor) :
  last_status (state_of (iteration env s))
  = Some (status (check_supabase_health (primary env))) /\
  consecutive_failures (state_of (iteration env s))
  = (if Status_eqb (status (check_supabase_health (primary env))) error
     then consecutive_failures s + 1 else 0).
Proof.
  destruct (iteration_summary _ _ _ _ (iteration_tick env s))
    as (_ & Hl & Hc & _).
  split; [exact Hl|]. rewrite Hc.
  destruct (status _); reflexivity.
Qed.

(** The failure count after a run: a left fold over the classifications. *)
Lemma run_failures (envs : list Env) (s : Monitor) :
  consecutive_failures (state_of (iterations envs s))
  = fold_left (fun n c => if Status_eqb c error then n + 1 else 0)
              (classifications envs) (consecutive_failures s).
Proof.
  revert s. induction envs as [|env rest IH]; intros s.
  - now rewrite iterations_nil.
  - destruct (run_cons env rest s) as (_ & -> & _).
    rewrite IH. cbn [classifications map fold_left].
    now destruct (iteration_alert_state env s) as (_ & ->).
Qed.

Lemma run_last_status (envs : list Env) (s : Monitor) :
  last_status (state_of (iterations envs s))
  = last (map Some (classifications envs)) (last_status s).
Proof.
  revert s. induction envs as [|env rest IH]; intros s.
  - now rewrite iterations_nil.
  - destruct (run_cons env rest s) as (_ & -> & _).
    rewrite IH. destruct (iteration_alert_state env s) as (-> & _).
    cbn [classifications map]. symmetry. apply last_cons_default.
Qed.

(** ERROR alerts over an outage of [n] ticks that starts at count [c]. *)
Lemma run_outage_alerts (envs : list Env) (s : Monitor) :
  Forall (fun env => status (check_supabase_health (primary env)) = error)
         envs ->
  0 <= consecutive_failures s ->
  count_severity ERROR (events_of (iterations envs s))
  = (consecutive_failures s + Z.of_nat (List.length envs)) / 5
    - consecutive_failures s / 5
    + (if (consecutive_failures s =? 0) && (0 <? Z.of_nat (List.length envs))
       then 1 else 0).
Proof.
  revert s. induction envs as [|env rest IH]; intros s Hall Hc.
  - rewrite iterations_nil. cbn [List.length Z.of_nat events_of snd].
    rewrite Z.add_0_r, andb_false_r. unfold count_severity. cbn. lia.
  - inversion Hall as [|? ? Herr Hrest]; subst.
    destruct (run_cons env rest s) as (_ & _ & ->).
    rewrite count_severity_app.
    destruct (iteration_alert_state env s) as (_ & Hn).
    rewrite Herr in Hn. cbn [Status_eqb] in Hn.
    rewrite (IH _ Hrest) by lia. rewrite Hn.
    rewrite (tick_alert_count _ _ _ _ ERROR (iteration_tick env s))
      by discriminate.
    rewrite Herr. cbn [alert_decider fst].
    set (c := consecutive_failures s) in *.
    cbn [List.length]. rewrite Nat2Z.inj_succ.
    set (n := Z.of_nat (List.length rest)).
    assert (Hn0 : 0 <= n) by (unfold n; lia).
    replace (c + 1 =? 0) with false by (symmetry; apply Z.eqb_neq; lia).
    replace (0 <? Z.succ n) with true by (symmetry; apply Z.ltb_lt; lia).
    cbn [andb]. rewrite andb_true_r.
    replace (c + 1 + n) with (c + Z.succ n) by lia.
    destruct (Z.eqb_spec (c + 1) 1) as [H1|H1];
      destruct (Z.eqb_spec ((c + 1) mod 5) 0) as [H5|H5];
      destruct (Z.eqb_spec c 0) as [H0|H0];
      cbn [orb Severity_eqb]; try lia;
      pose proof (Z.div_mod (c + 1) 5 ltac:(lia));
      pose proof (Z.div_mod c 5 ltac:(lia));
      pose proof (Z.mod_pos_bound (c + 1) 5 ltac:(lia));
      pose proof (Z.mod_pos_bound c 5 ltac:(lia));
      lia.
Qed.

End Runs.

Lemma monitoring_iteration_tick (env : Env) (s : Monitor) :
  tick (check_supabase_health (primary env)) env s (Monitoring.iteration env s).
Proof. apply tick_monitoring. Qed.

Lemma baseline_iteration_tick (env : Env) (s : Monitor) :
  tick (check_supabase_health (primary env)) env s (Baseline.iteration env s).
Proof. apply tick_baseline. Qed.

Lemma monitoring_iterations_nil (s : Monitor) :
  Monitoring.iterations [] s = (inr tt, s, []).
Proof. reflexivity. Qed.

Lemma monitoring_iterations_cons (env : Env) (rest : list Env) (s : Monitor) :
  Monitoring.iterations (env :: rest) s
  = bind (Monitoring.iteration env) (fun _ => Monitoring.iterations rest) s.
Proof. reflexivity. Qed.

Lemma baseline_iterations_nil (s : Monitor) :
  Baseline.iterations [] s = (inr tt, s, []).
Proof. reflexivity. Qed.

Lemma baseline_iterations_cons (env : Env) (rest : list Env) (s : Monitor) :
  Baseline.iterations (env :: rest) s
  = bind (Baseline.iteration env) (fun _ => Baseline.iterations rest) s.
Proof. reflexivity. Qed.

Lemma fold_is_trailing_errors (l : list Status) :
  fold_left (fun n c => if Status_eqb c error then n + 1 else 0) l 0
  = trailing_errors l.
Proof.
  unfold trailing_errors.
  induction l as [|c l IH] using rev_ind; [reflexivity|].
  rewrite fold_left_app, rev_app_distr, IH.
  cbn [fold_left rev app]. destruct c; cbn [Status_eqb leading_errors]; lia.
Qed.

(** X9: after any run of the loop on a new monitor, the failure count is the
    number of ticks classified as an error at the end of the run (0 after a
    run that ends otherwise), and the stored classification is that of the
    last tick. *)
Theorem failure_count_is_trailing_errors (envs : list Env) :
  consecutive_failures (state_of (Monitoring.iterations envs init))
  = trailing_errors (classifications envs) /\
  consecutive_failures (state_of (Baseline.iterations envs init))
  = trailing_errors (classifications envs) /\
  last_status (state_of (Monitoring.iterations envs init))
  = last (map Some (classifications envs)) None /\
  last_status (state_of (Baseline.iterations envs init))
  = last (map Some (classifications envs)) None.
Proof.
  rewrite <- fold_is_trailing_errors.
  split; [|split; [|split]].
  - apply (run_failures Monitoring.iteration Monitoring.iterations
             monitoring_iterations_nil monitoring_iterations_cons
             monitoring_iteration_tick envs init).
  - apply (run_failures Baseline.iteration Baseline.iterations
             baseline_iterations_nil baseline_iterations_cons
             baseline_iteration_tick envs init).
  - apply (run_last_status Monitoring.iteration Monitoring.iterations
             monitoring_iterations_nil monitoring_iterations_cons
             monitoring_iteration_tick envs init).
  - apply (run_last_status Baseline.iteration Baseline.iterations
             baseline_iterations_nil baseline_iterations_cons
             baseline_iteration_tick envs init).
Qed.

(** X10: alert volume under a sustained outage.  Over a run of n >= 1 ticks
    all classified as errors, started with a failure count of 0, exactly
    1 + n / 5 ERROR alerts are sent (integer division); none for n = 0. *)
Theorem outage_alert_volume (envs : list Env) (self : Monitor) :
  Forall (fun env => status (check_supabase_health (primary env)) = error)
         envs ->
  consecutive_failures self = 0 ->
  let n := Z.of_nat (List.length envs) in
  count_severity ERROR (events_of (Monitoring.iterations envs self))
  = (if n =? 0 then 0 else 1 + n / 5) /\
  count_severity ERROR (events_of (Baseline.iterations envs self))
  = (if n =? 0 then 0 else 1 + n / 5).
Proof.
  intros Hall Hc n.
  pose proof (run_outage_alerts Monitoring.iteration Monitoring.iterations
                monitoring_iterations_nil monitoring_iterations_cons
                monitoring_iteration_tick envs self Hall) as HM.
  pose proof (run_outage_alerts Baseline.iteration Baseline.iterations
                baseline_iterations_nil baseline_iterations_cons
                baseline_iteration_tick envs self Hall) as HB.
  rewrite Hc in HM, HB. fold n in HM, HB.
  rewrite HM, HB by lia. rewrite Z.add_0_l. cbn [Z.eqb andb].
  assert (Hn : 0 <= n) by (unfold n; lia).
  change (0 / 5) with 0.
  destruct (Z.eqb_spec n 0) as [->|Hne].
  - split; reflexivity.
  - replace (0 <? n) with true by (symmetry; apply Z.ltb_lt; lia).
    split; lia.
Qed.

Lemma outage_alert_volume_witness :
  count_severity ERROR
    (events_of
       (Monitoring.iterations
          (repeat (sample_env (Failed Timeout)) 11) init)) = 3.
Proof.
  apply (outage_alert_volume (repeat (sample_env (Failed Timeout)) 11) init).
  - repeat constructor.
  - reflexivity.
Defined.

Lemma tick_no_monitor_error (h : HealthStatus) (env : Env) (self : Monitor)
    (r : (Py.Exn + unit) * Monitor * list Event) :
  tick h env self r -> Forall not_monitor_error (posts (events_of r)).
Proof.
  assert (Ha : forall eps,
             Forall not_monitor_error
                    (option_list (alert_message h eps self))).
  { intros eps. unfold alert_message.
    destruct (fst (alert_decider _ _ _)) as [[| | |]|];
      repeat constructor; intros e; discriminate. }
  intros [|].
  - destruct (monitoring_tick_explicit h env self)
      as (d' & out & up & _ & _ & E & P).
    rewrite E. monad_cbn. rewrite P. apply Forall_app. split; [|apply Ha].
    destruct (reports env self); repeat constructor. intros e; discriminate.
  - destruct (baseline_tick_explicit h env self) as (out & E & P).
    rewrite E. monad_cbn. rewrite P. apply Ha.
Qed.

Lemma loop_start (iterations : list Env -> M unit) (start : Env)
    (envs : list Env) (self : Monitor) :
  exists out,
    posts out = [(INFO, MonitoringStarted)] /\
    result_of
      ((emit (LogInfo Starting) ;;
        notify start MonitoringStarted INFO ;;
        iterations envs) self)
    = result_of (iterations envs self) /\
    state_of
      ((emit (LogInfo Starting) ;;
        notify start MonitoringStarted INFO ;;
        iterations envs) self)
    = state_of (iterations envs self) /\
    events_of
      ((emit (LogInfo Starting) ;;
        notify start MonitoringStarted INFO ;;
        iterations envs) self)
    = (out ++ events_of (iterations envs self))%list.
Proof.
  destruct (send_telegram_alert_run (telegram start INFO MonitoringStarted)
              MonitoringStarted INFO self) as (o & E & P).
  exists (LogInfo Starting :: o). split; [cbn; exact P|].
  destruct (iterations envs self) as [[r s] out] eqn:Ei.
  assert (Hrun : (emit (LogInfo Starting) ;;
                  notify start MonitoringStarted INFO ;;
                  iterations envs) self
                 = (r, s, ([LogInfo Starting] ++ o ++ out)%list)).
  { eapply bind_run; [reflexivity|].
    eapply bind_run; [exact E|exact Ei]. }
  rewrite Hrun. cbn. auto.
Qed.


(** ** The daily report over a run *)

Lemma monitoring_iteration_report (env : Env) (s : Monitor) :
  count_severity DAILY_SUCCESS (events_of (Monitoring.iteration env s))
  = (if reports env s then 1 else 0) /\
  last_daily_report_date (state_of (Monitoring.iteration env s))
  = (if reports env s then Some (date_of (clock_sent env))
     else last_daily_report_date s).
Proof.
  unfold Monitoring.iteration.
  destruct (monitoring_tick_explicit
              (check_supabase_health (primary env)) env s)
    as (d' & out & up & _ & _ & E & P).
  rewrite E. monad_cbn. split; [|reflexivity].
  rewrite (count_severity_posts _ _ _ P), map_app, filter_app, length_app.
  destruct (alert_message _ _ _) as [[severity m]|] eqn:A.
  - apply alert_message_severity in A. destruct A as [Hne _].
    destruct (reports env s); destruct severity; cbn; congruence.
  - destruct (reports env s); reflexivity.
Qed.

Lemma reports_same_day (env : Env) (s : Monitor) :
  last_daily_report_date s = Some (date_of (clock_due env)) ->
  reports env s = false.
Proof.
  intros H. unfold reports. rewrite H. cbn.
  replace (date_eqb (date_of (clock_due env)) (date_of (clock_due env)))
    with true by (symmetry; now apply date_eqb_eq).
  reflexivity.
Qed.

Section SameDay.

Variable today : date.

Lemma no_second_report (envs : list Env) (s : Monitor) :
  Forall (fun env : Env =>
            date_of (clock_due env) = today /\
            date_of (clock_sent env) = today) envs ->
  last_daily_report_date s = Some today ->
  count_severity DAILY_SUCCESS (events_of (Monitoring.iterations envs s)) = 0.
Proof.
  revert s. induction envs as [|env rest IH]; intros s Hall Hs.
  - reflexivity.
  - inversion Hall as [|e r [Hdue Hsent] Hrest]; subst e r.
    destruct (run_cons Monitoring.iteration Monitoring.iterations
                monitoring_iterations_cons monitoring_iteration_tick
                env rest s) as (_ & _ & ->).
    destruct (monitoring_iteration_report env s) as (Hc & Hd).
    rewrite reports_same_day in Hc, Hd by congruence.
    rewrite count_severity_app, Hc, IH; [reflexivity|assumption|congruence].
Qed.

Lemma at_most_one_report (envs : list Env) (s : Monitor) :
  Forall (fun env : Env =>
            date_of (clock_due env) = today /\
            date_of (clock_sent env) = today) envs ->
  count_severity DAILY_SUCCESS (events_of (Monitoring.iterations envs s)) <= 1.
Proof.
  revert s. induction envs as [|env rest IH]; intros s Hall.
  - cbn. lia.
  - inversion Hall as [|e r [Hdue Hsent] Hrest]; subst e r.
    destruct (run_cons Monitoring.iteration Monitoring.iterations
                monitoring_iterations_cons monitoring_iteration_tick
                env rest s) as (_ & _ & ->).
    destruct (monitoring_iteration_report env s) as (Hc & Hd).
    rewrite count_severity_app, Hc.
    destruct (reports env s).
    + rewrite no_second_report; [lia|assumption|].
      rewrite Hd. congruence.
    + specialize (IH (state_of (Monitoring.iteration env s)) Hrest). lia.
Qed.

End SameDay.

(** X12: at most one daily report per calendar day.  Over any run of ticks
    whose clock readings all fall on one date, from any state, at most one
    DAILY_SUCCESS notification is sent; none if the stored report date
    already is that date. *)
Theorem one_report_per_day (today : date) (envs : list Env) (self : Monitor) :
  Forall (fun env => date_of (clock_due env) = today /\
                     date_of (clock_sent env) = today) envs ->
  count_severity DAILY_SUCCESS (events_of (Monitoring.iterations envs self))
  <= 1 /\
  (last_daily_report_date self = Some today ->
   count_severity DAILY_SUCCESS (events_of (Monitoring.iterations envs self))
   = 0).
Proof.
  intros Hall. split.
  - apply (at_most_one_report today envs self Hall).
  - apply (no_second_report today envs self Hall).
Qed.

Lemma one_report_per_day_witness :
  count_severity DAILY_SUCCESS
    (events_of
       (Monitoring.iterations
          (repeat (sample_env (Responded 200 (1 # 4))) 4) init)) <= 1.
Proof.
  apply (one_report_per_day (mkDate 2025 6 1)
           (repeat (sample_env (Responded 200 (1 # 4))) 4) init).
  repeat constructor.
Defined.

(** ** Statistics over a run *)

Lemma zero_stats_consistent : stats_consistent zero_stats.
Proof. unfold stats_consistent. cbn. repeat split; lia. Qed.

Lemma len_snoc {A : Type} (xs : list A) (x : A) :
  Py.len (xs ++ [x])%list = Py.len xs + 1.
Proof. unfold Py.len. rewrite length_app. cbn. lia. Qed.

Lemma update_consistent (h : HealthStatus) (s : Monitor) :
  stats_consistent (daily_stats s) ->
  stats_consistent (daily_stats (state_of (update_daily_stats h s))).
Proof.
  intros (He & Hw & Hsum & Hlen & Hdt).
  destruct (update_daily_stats_run h s)
    as (d' & -> & Hc' & He' & Hw' & Hd' & Hs').
  monad_cbn. unfold stats_consistent.
  assert (Hexcl : (if Status_eqb (status h) error then 1 else 0)
                  + (if Status_eqb (status h) warning then 1 else 0) <= 1)
    by (destruct (status h); cbn; lia).
  assert (H01 : 0 <= (if Status_eqb (status h) error then 1 else 0)
                /\ 0 <= (if Status_eqb (status h) warning then 1 else 0))
    by (destruct (status h); cbn; lia).
  repeat split; try lia.
  - destruct (response_time h) as [t|].
    + destruct (Qeq_bool t 0); destruct Hs' as [-> _];
        rewrite ?len_snoc; lia.
    + destruct Hs' as [-> _]. lia.
  - rewrite Hd', He', Hdt.
    destruct (Status_eqb (status h) error).
    + rewrite inject_Z_plus. apply Qplus_comp; reflexivity.
    + rewrite Z.add_0_r. ring.
Qed.

Lemma monitoring_iteration_consistent (env : Env) (s : Monitor) :
  stats_consistent (daily_stats s) ->
  stats_consistent (daily_stats (state_of (Monitoring.iteration env s))).
Proof.
  intros Hs. unfold Monitoring.iteration.
  destruct (monitoring_tick_explicit
              (check_supabase_health (primary env)) env s)
    as (d' & out & up & E2 & _ & E & _).
  rewrite E. monad_cbn.
  match type of E2 with
  | update_daily_stats ?h ?s1 = _ =>
      pose proof (update_consistent h s1) as Hu; rewrite E2 in Hu
  end.
  apply Hu. monad_cbn.
  destruct (reports env s); [apply zero_stats_consistent|exact Hs].
Qed.

Lemma uptime_in_range (d : DailyStats) :
  stats_consistent d ->
  exists q, uptime_percentage d = inr q /\ (0 <= q <= 100)%Q.
Proof.
  intros (He & Hw & Hsum & _).
  unfold uptime_percentage.
  rewrite truediv_ok by apply max_one_nonzero.
  eexists; split; [reflexivity|].
  set (m := Z.max (checks_today d) 1).
  assert (Hm : (0 < inject_Z m)%Q)
    by (change 0%Q with (inject_Z 0); rewrite <- Zlt_Qlt; unfold m; lia).
  assert (Hlo : (0 <= inject_Z (errors_today d) / inject_Z m)%Q).
  { apply Qle_shift_div_l; [exact Hm|].
    rewrite Qmult_0_l. change 0%Q with (inject_Z 0).
    rewrite <- Zle_Qle. exact He. }
  assert (Hhi : (inject_Z (errors_today d) / inject_Z m <= 1)%Q).
  { apply Qle_shift_div_r; [exact Hm|].
    rewrite Qmult_1_l, <- Zle_Qle. unfold m. lia. }
  split; lra.
Qed.

(** X13: after any run of the loop on a new monitor, the daily statistics fit
    together: no counter is negative, errors plus warnings do not exceed the
    checks, there is at most one latency sample per check, and the downtime
    in minutes equals the number of errors. *)
Theorem statistics_stay_consistent (envs : list Env) :
  let d := daily_stats (state_of (Monitoring.iterations envs init)) in
  0 <= errors_today d /\ 0 <= warnings_today d /\
  errors_today d + warnings_today d <= checks_today d /\
  Py.len (response_times d) <= checks_today d /\
  (total_downtime_minutes d == inject_Z (errors_today d))%Q.
Proof.
  apply (run_invariant Monitoring.iteration Monitoring.iterations
           monitoring_iterations_nil monitoring_iterations_cons
           monitoring_iteration_tick
           (fun s => stats_consistent (daily_stats s))).
  - apply monitoring_iteration_consistent.
  - apply zero_stats_consistent.
Qed.

(** X14: after any run of the loop on a new monitor, computing the uptime
    percentage does not raise and gives a value between 0 and 100. *)
Theorem uptime_between_0_and_100 (envs : list Env) :
  exists q,
    uptime_percentage
      (daily_stats (state_of (Monitoring.iterations envs init))) = inr q /\
    (0 <= q <= 100)%Q.
Proof.
  apply uptime_in_range.
  apply (run_invariant Monitoring.iteration Monitoring.iterations
           monitoring_iterations_nil monitoring_iterations_cons
           monitoring_iteration_tick
           (fun s => stats_consistent (daily_stats s))).
  - apply monitoring_iteration_consistent.
  - apply zero_stats_consistent.
Qed.

(** ** The loop as a whole *)

Lemma monitoring_run_consistent (envs : list Env) :
  stats_consistent (daily_stats (state_of (Monitoring.iterations envs init))).
Proof.
  apply (run_invariant Monitoring.iteration Monitoring.iterations
           monitoring_iterations_nil monitoring_iterations_cons
           monitoring_iteration_tick
           (fun s => stats_consistent (daily_stats s))).
  - apply monitoring_iteration_consistent.
  - apply zero_stats_consistent.
Qed.

(** X11: on a new monitor the loop never reaches its exception handler.  A
    run of the loop, on either monitor, completes without a division by
    zero, the one exception the operations of the model raise; the errors
    counted never exceed the checks, so that the quotient
    [errors_today / max(checks_today, 1)] of the report stays between 0 and
    1 and cannot leave the range of a float; the first notification is the
    INFO start message; and no "Monitor error" notification is posted. *)
Theorem loop_never_raises (start : Env) (envs : list Env) :
  (result_of (Monitoring.monitor_loop start envs init) = inr tt /\
   hd_error (posts (events_of (Monitoring.monitor_loop start envs init)))
   = Some (INFO, MonitoringStarted) /\
   Forall not_monitor_error
          (posts (events_of (Monitoring.monitor_loop start envs init))) /\
   0 <= errors_today
          (daily_stats (state_of (Monitoring.monitor_loop start envs init)))
     <= checks_today
          (daily_stats (state_of (Monitoring.monitor_loop start envs init)))) /\
  (result_of (Baseline.monitor_loop start envs init) = inr tt /\
   hd_error (posts (events_of (Baseline.monitor_loop start envs init)))
   = Some (INFO, MonitoringStarted) /\
   Forall not_monitor_error
          (posts (events_of (Baseline.monitor_loop start envs init)))).
Proof.
  split.
  - destruct (loop_start Monitoring.iterations start envs init)
      as (out & P & Hr & Hs & He).
    unfold Monitoring.monitor_loop. rewrite Hr, Hs, He, posts_app, P.
    split; [|split; [reflexivity|split]].
    + apply (run_ok Monitoring.iteration Monitoring.iterations
               monitoring_iterations_nil monitoring_iterations_cons
               monitoring_iteration_tick).
    + constructor; [intros e; discriminate|].
      apply (run_posts Monitoring.iteration Monitoring.iterations
               monitoring_iterations_nil monitoring_iterations_cons
               monitoring_iteration_tick).
      intros env s. eapply tick_no_monitor_error, monitoring_iteration_tick.
    + destruct (monitoring_run_consistent envs) as (H1 & H2 & H3 & _). lia.
  - destruct (loop_start Baseline.iterations start envs init)
      as (out & P & Hr & _ & He).
    unfold Baseline.monitor_loop. rewrite Hr, He, posts_app, P.
    split; [|split; [reflexivity|]].
    + apply (run_ok Baseline.iteration Baseline.iterations
               baseline_iterations_nil baseline_iterations_cons
               baseline_iteration_tick).
    + constructor; [intros e; discriminate|].
      apply (run_posts Baseline.iteration Baseline.iterations
               baseline_iterations_nil baseline_iterations_cons
               baseline_iteration_tick).
      intros env s. eapply tick_no_monitor_error, baseline_iteration_tick.
Qed.

(** ** Start-up *)

Lemma unconfigured_spec (value : option string) (placeholder : string) :
  unconfigured value placeholder = true <-> ~ configured value placeholder.
Proof.
  unfold unconfigured, configured. destruct value as [v|].
  - destruct v as [|a v]; cbn [Py.truthy_str negb orb].
    + split; [|reflexivity]. intros _ (v & [= <-] & H & _). now apply H.
    + destruct (String.eqb_spec (String a v) placeholder) as [E|E]; split.
      * intros _ (v' & [= <-] & _ & H). now apply H.
      * reflexivity.
      * discriminate.
      * intros H. exfalso. apply H. exists (String a v).
        repeat split; [discriminate|exact E].
  - cbn. split; [|reflexivity]. intros _ (v & H & _). discriminate.
Qed.

Lemma unconfigured_false (value : option string) (placeholder : string) :
  unconfigured value placeholder = false <-> configured value placeholder.
Proof.
  split.
  - unfold unconfigured, configured. destruct value as [v|]; [|discriminate].
    destruct v as [|a v]; cbn [Py.truthy_str negb orb]; [discriminate|].
    destruct (String.eqb_spec (String a v) placeholder) as [E|E];
      [discriminate|].
    intros _. exists (String a v). repeat split; [discriminate|exact E].
  - intros C. destruct (unconfigured value placeholder) eqn:E; [|reflexivity].
    apply unconfigured_spec in E. contradiction.
Qed.

(** X15: configuration validation.  [validate_config] returns normally,
    printing nothing, exactly when each of the four settings is set, not
    empty and not its placeholder; it exits, with status 1, exactly when
    some setting fails, and then the first line printed is the header and
    there is one line naming each setting that fails, and no line for a
    setting that passes. *)
Theorem config_validation (cfg : Config) :
  (validate_config cfg = ([], None) <-> all_configured cfg) /\
  (snd (validate_config cfg) = Some 1 <-> ~ all_configured cfg) /\
  (~ all_configured cfg ->
   hd_error (fst (validate_config cfg)) = Some "Configuration errors found:") /\
  (In "- SUPABASE_URL is not configured" (fst (validate_config cfg)) <->
   ~ configured (SUPABASE_URL cfg) "your_supabase_url_here") /\
  (In "- SUPABASE_KEY is not configured" (fst (validate_config cfg)) <->
   ~ configured (SUPABASE_KEY cfg) "your_supabase_anon_key_here") /\
  (In "- TELEGRAM_BOT_TOKEN is not configured" (fst (validate_config cfg)) <->
   ~ configured (TELEGRAM_BOT_TOKEN cfg) "your_telegram_bot_token_here") /\
  (In "- TELEGRAM_CHAT_ID is not configured" (fst (validate_config cfg)) <->
   ~ configured (TELEGRAM_CHAT_ID cfg) "your_telegram_chat_id_here").
Proof.
  unfold all_configured.
  rewrite <- !unconfigured_spec, <- !unconfigured_false.
  unfold validate_config, config_errors.
  destruct (unconfigured (SUPABASE_URL cfg) _);
    destruct (unconfigured (SUPABASE_KEY cfg) _);
    destruct (unconfigured (TELEGRAM_BOT_TOKEN cfg) _);
    destruct (unconfigured (TELEGRAM_CHAT_ID cfg) _);
    cbn [app map fst snd hd_error In String.append];
    repeat split; intros; auto;
    try discriminate;
    repeat match goal with
           | H : _ /\ _ |- _ => destruct H
           | H : _ \/ _ |- _ => destruct H
           | H : False |- _ => destruct H
           | |- ~ _ => intros (? & ? & ? & ?)
           | H : ~ (_ /\ _ /\ _ /\ _) |- _ =>
               exfalso; apply H; repeat split; reflexivity
           end;
    try discriminate; auto 10.
Qed.

(** X16: the main block.  With all four settings configured it prints nothing
    and runs the loop on a new monitor; otherwise it prints the errors and
    exits with status 1 without creating the monitor, so that nothing is
    requested or posted. *)
Theorem main_runs_only_when_configured
    (loop : Env -> list Env -> M unit) (cfg : Config) (start : Env)
    (envs : list Env) :
  (all_configured cfg /\
   main loop cfg start envs = ([], None, Some (loop start envs init))) \/
  (~ all_configured cfg /\
   exists printed,
     printed <> [] /\ main loop cfg start envs = (printed, Some 1, None)).
Proof.
  assert (Hv : validate_config cfg = ([], None) <-> all_configured cfg).
  { unfold all_configured. rewrite <- !unconfigured_false.
    unfold validate_config, config_errors.
    destruct (unconfigured (SUPABASE_URL cfg) _);
      destruct (unconfigured (SUPABASE_KEY cfg) _);
      destruct (unconfigured (TELEGRAM_BOT_TOKEN cfg) _);
      destruct (unconfigured (TELEGRAM_CHAT_ID cfg) _);
      cbn [app map]; split; intros H; try discriminate; auto;
      destruct H as (? & ? & ? & ?); discriminate. }
  unfold main. unfold validate_config in *.
  destruct (config_errors cfg) as [|e errors].
  - left. split; [now apply Hv|reflexivity].
  - right. split.
    + intros H. apply Hv in H. discriminate.
    + eexists. split; [|reflexivity]. discriminate.
Qed.

(** ** The average over a run *)

(** X18: over any run of the loop on a new monitor, daily resets included, the
    stored average response time is the arithmetic mean of the stored
    samples, and 0 while there is none. *)
Theorem average_is_mean_over_runs (envs : list Env) :
  average_is_mean (daily_stats (state_of (Monitoring.iterations envs init))).
Proof.
  apply (run_invariant Monitoring.iteration Monitoring.iterations
           monitoring_iterations_nil monitoring_iterations_cons
           monitoring_iteration_tick
           (fun s => average_is_mean (daily_stats s))).
  - intros env s Hs. unfold Monitoring.iteration.
    destruct (monitoring_tick_explicit
                (check_supabase_health (primary env)) env s)
      as (d' & out & up & E2 & _ & E & _).
    rewrite E. monad_cbn.
    match type of E2 with
    | update_daily_stats ?h ?s1 = _ =>
        pose proof (update_preserves_average h s1) as Hu; rewrite E2 in Hu
    end.
    apply Hu. monad_cbn.
    destruct (reports env s); [|exact Hs].
    unfold average_is_mean. cbn. reflexivity.
  - unfold average_is_mean. cbn. reflexivity.
Qed.
